(** * Equity analysis: significance engines and effect size

    A shallow embedding of [sample_data_equity_analysis/analysis_helper.py]
    ([run_anova], [_calc_cohens_d], [run_t_test]) and of the helpers of
    [utilities.py] they call ([log_message], [log_info], [log_warning],
    [log_error], [log_dataframe], [num_to_string]).

    Numbers are IEEE 754 binary64 values, as Python's [float] and numpy's
    [float64] are: Rocq's primitive floats.  The pandas reductions the code
    calls ([count], [mean], [std], [describe]) are written out over lists
    of floats; the scipy tests and the text formatting of Python are taken
    as interfaces ([Scipy], [PyFmt]), so that every theorem holds whatever
    these libraries return. *)

From Stdlib Require Import Floats ZArith List String Ascii Bool Lia.
From Stdlib Require Import Sorting.Sorted Sorting.Permutation.
From Stdlib Require Import DecimalString.
Import ListNotations.

Set Warnings "-inexact-float".

Local Open Scope string_scope.
Local Open Scope list_scope.
Local Open Scope Z_scope.
Local Open Scope float_scope.

(** ** Numbers *)

Module Num.

(** [numpy.NaN] *)
Definition NaN : float := nan.

(** An [int64] operand meeting a [float64] one is converted to binary64,
    rounding to nearest (exact below 2^53; the counts of this program are
    far below 2^63, where [Uint63.of_Z] would wrap). *)
Definition float_of_Z (z : Z) : float :=
  match z with
  | Z0 => 0
  | Zpos p => of_uint63 (Uint63.of_Z (Zpos p))
  | Zneg p => - of_uint63 (Uint63.of_Z (Zpos p))
  end.

(** [x ** 2] on a numpy float64: the product of [x] with itself. *)
Definition square (x : float) : float := x * x.

End Num.
Import Num.

(** ** Effects: exceptions and what the notebook shows

    A computation returns a value or raises, and leaves a trace: the
    Markdown it displayed and the library tests it ran, in order. *)

Inductive exn : Type :=
| ValueError (msg : string)
| KeyError
| IndexError.

Inductive outcome (A : Type) : Type :=
| Ok (a : A)
| Raise (e : exn).
Arguments Ok {A} a.
Arguments Raise {A} e.

Definition Series : Type := list float.

Inductive libcall : Type :=
| F_oneway (data : list Series)
| Kruskal (data : list Series)
| Tukey_hsd (data : list Series)
| Ttest_ind (a b : Series) (equal_var : bool).

Inductive event : Type :=
| Display (markdown : string)
| Call (c : libcall).

Definition M (A : Type) : Type := (outcome A * list event)%type.

Definition ret {A} (a : A) : M A := (Ok a, []).

Definition raise {A} (e : exn) : M A := (Raise e, []).

Definition bind {A B} (m : M A) (k : A -> M B) : M B :=
  match m with
  | (Ok a, t) => let (r, t') := k a in (r, t ++ t')
  | (Raise e, t) => (Raise e, t)
  end.

Definition emit (ev : event) : M unit := (Ok tt, [ev]).

(** [m], with the events [t] before its own. *)
Definition after {A} (t : list event) (m : M A) : M A :=
  (fst m, t ++ snd m).

Declare Scope py_scope.
Delimit Scope py_scope with py.
Notation "x <- m ;; k" := (bind m (fun x => k))
  (at level 61, m at next level, right associativity) : py_scope.
Notation "' p <- m ;; k" := (bind m (fun x => let p := x in k))
  (at level 61, p pattern, m at next level, right associativity) : py_scope.
Notation "m ;; k" := (bind m (fun _ => k))
  (at level 61, right associativity) : py_scope.
Local Open Scope py_scope.

Definition result {A} (m : M A) : outcome A := fst m.
Definition trace {A} (m : M A) : list event := snd m.

(** [math.sqrt]: a [ValueError] below zero, IEEE square root otherwise
    ([-0.0] and NaN are returned as they are). *)
Definition math_sqrt (x : float) : M float :=
  if x <? 0 then raise (ValueError "math domain error") else ret (sqrt x).

(** ** pandas Series reductions

    A Series of the outcome column is a list of floats in which NaN
    stands for a missing value; every reduction skips the missing ones.
    Sums are taken from left to right (numpy adds long arrays pairwise,
    which can change the last bit of a sum, and nothing in what is proved
    of them below). *)

Module pd.

Definition notna (x : float) : bool := negb (is_nan x).

Definition dropna (s : Series) : Series := filter notna s.

(** [Series.count()]: the number of non-missing values (an int64). *)
Definition count (s : Series) : Z := Z.of_nat (List.length (dropna s)).

Definition sum (s : Series) : float := fold_left add (dropna s) 0.

(** [Series.mean()]: NaN on an empty Series. *)
Definition mean (s : Series) : float :=
  if (0 <? count s)%Z then sum s / float_of_Z (count s) else NaN.

(** [Series.var()] with the default [ddof = 1]: the sum of the squared
    deviations from the mean over [count - 1]; NaN when [count <= 1]. *)
Definition var (s : Series) : float :=
  if (count s <=? 1)%Z then NaN
  else
    let avg := sum s / float_of_Z (count s) in
    fold_left add (map (fun x => square (avg - x)) (dropna s)) 0
    / float_of_Z (count s - 1).

(** [Series.std()]: numpy's square root (NaN below zero) of [var]. *)
Definition std (s : Series) : float := sqrt (var s).

Definition fmin (a b : float) : float := if b <? a then b else a.
Definition fmax (a b : float) : float := if a <? b then b else a.

(** [Series.min()] and [Series.max()]: NaN on an empty Series. *)
Definition min (s : Series) : float :=
  match dropna s with
  | [] => NaN
  | x :: l => fold_left fmin l x
  end.

Definition max (s : Series) : float :=
  match dropna s with
  | [] => NaN
  | x :: l => fold_left fmax l x
  end.

(** [Series.describe()], the entries the program reads (the quartiles
    are computed by pandas and never read here). *)
Record description : Type := {
  d_count : float;
  d_mean : float;
  d_std : float;
  d_min : float;
  d_max : float
}.

Definition describe (s : Series) : description :=
  {| d_count := float_of_Z (count s);
     d_mean := mean s;
     d_std := std s;
     d_min := min s;
     d_max := max s |}.

End pd.

Notation "x >? y" := (PrimFloat.ltb y x) (only parsing) : float_scope.
Notation "x >? y" := (Nat.ltb y x) (only parsing) : nat_scope.

(** ** Tables shown in the notebook *)

(** A cell holds text, or the pair of texts [_calc_cohens_d] returns. *)
Inductive cell : Type :=
| Str (s : string)
| Tuple (a b : string).

Record DataFrame : Type := {
  columns : list string;
  data : list (list cell)
}.

(** [pd.DataFrame(columns=..., data=...)]: every row must have one cell
    per column. *)
Definition new_DataFrame (cols : list string) (rows : list (list cell))
  : M DataFrame :=
  if forallb (fun r => (List.length r =? List.length cols)%nat) rows
  then ret {| columns := cols; data := rows |}
  else raise (ValueError "columns passed do not match the data").

Fixpoint index_of (x : string) (l : list string) : option nat :=
  match l with
  | [] => None
  | y :: l' => if String.eqb x y then Some O
               else option_map S (index_of x l')
  end.

(** Python's order on the cells of a column: strings by code point, tuples
    lexicographically.  (A column mixing both makes Python raise a
    [TypeError]; no table of this program has one, and the order below
    puts the strings first.) *)
Definition cell_compare (a b : cell) : comparison :=
  match a, b with
  | Str x, Str y => String.compare x y
  | Tuple x1 x2, Tuple y1 y2 =>
      match String.compare x1 y1 with
      | Eq => String.compare x2 y2
      | c => c
      end
  | Str _, Tuple _ _ => Lt
  | Tuple _ _, Str _ => Gt
  end.

Definition cell_leb (a b : cell) : bool :=
  match cell_compare a b with Gt => false | _ => true end.

Definition cell_at (i : nat) (row : list cell) : cell := nth i row (Str "").

Section Sorting.
Context {A : Type} (leb : A -> A -> bool).

Fixpoint insert (x : A) (l : list A) : list A :=
  match l with
  | [] => [x]
  | y :: l' => if leb x y then x :: l else y :: insert x l'
  end.

(** Insertion sort, which is stable.  numpy's default sort is this one
    on arrays of 16 elements or fewer (a post-hoc table for up to six
    labels); on longer arrays it may leave rows of equal key in another
    order, which matters to no statement on all inputs below. *)
Definition sort (l : list A) : list A := fold_right insert [] l.
End Sorting.

(** [df.sort_values(by=[col], inplace=True)] *)
Definition sort_values (col : string) (df : DataFrame) : M DataFrame :=
  match index_of col (columns df) with
  | None => raise KeyError
  | Some i =>
      ret {| columns := columns df;
             data := sort (fun r1 r2 => cell_leb (cell_at i r1) (cell_at i r2))
                          (data df) |}
  end.

(** ** Python lists and dicts *)

Definition len {A} (l : list A) : nat := List.length l.

Definition range (n : nat) : list nat := seq 0 n.

Definition getitem {A} (l : list A) (i : nat) : M A :=
  match nth_error l i with
  | Some x => ret x
  | None => raise IndexError
  end.

Definition dict_getitem {V} (d : list (string * V)) (k : string) : M V :=
  match find (fun kv => String.eqb (fst kv) k) d with
  | Some kv => ret (snd kv)
  | None => raise KeyError
  end.

(** [for x in l: s = body x s] *)
Fixpoint for_each {A S} (l : list A) (body : A -> S -> M S) (s : S) : M S :=
  match l with
  | [] => ret s
  | x :: l' => s' <- body x s ;; for_each l' body s'
  end.

(** [pd.unique] and [Series.unique()]: first occurrences, in order. *)
Fixpoint unique (l : list string) : list string :=
  match l with
  | [] => []
  | x :: l' => x :: filter (fun y => negb (String.eqb x y)) (unique l')
  end.

Definition str_of_Z (z : Z) : string := NilZero.string_of_int (Z.to_int z).

Definition newline : string := String (ascii_of_nat 10) EmptyString.

(** ** The libraries the program calls *)

Record ConfidenceInterval : Type := {
  low : nat -> nat -> float;
  high : nat -> nat -> float
}.

(** The result of [scipy.stats.tukey_hsd]: square matrices indexed by the
    positions of two samples. *)
Record TukeyHSDResult : Type := {
  statistic : nat -> nat -> float;
  pvalue : nat -> nat -> float;
  confidence_interval : ConfidenceInterval
}.

(** What the tests of [scipy.stats] return: a statistic and a p-value, or
    the Tukey matrices.  The engines call them on two samples or more of
    over 30 outcome values each, where they return (at worst NaN, with a
    warning) and do not raise. *)
Class Scipy : Type := {
  scipy_f_oneway : list Series -> float * float;
  scipy_kruskal : list Series -> float * float;
  scipy_tukey_hsd : list Series -> TukeyHSDResult;
  scipy_ttest_ind : Series -> Series -> bool -> float * float
}.

(** Text formatting done by Python, numpy and pandas. *)
Class PyFmt : Type := {
  (** [round(number, ndigits)] *)
  round : float -> Z -> float;
  (** ["{:,}".format(x)] *)
  format_comma : float -> string;
  (** [f"{a}"] for a numpy array of labels *)
  str_array : list string -> string;
  (** [df.to_markdown(index=False)] *)
  to_markdown : DataFrame -> string
}.

(** ** The dataset *)

(** A row of [students]: the entity key (never null: it is the key of the
    table the rows are read from, so that the count of [StudentKey] in a
    group is the number of its rows), and for each column name the
    demographic value (possibly null) or the outcome measure (NaN when
    missing). *)
Record student : Type := {
  StudentKey : Z;
  demographics : string -> option string;
  measures : string -> float
}.

Definition Students : Type := list student.

(** [students[demographic] == label], row by row: a null never matches. *)
Definition has_label (demographic label : string) (r : student) : bool :=
  match demographics r demographic with
  | Some l => String.eqb l label
  | None => false
  end.

(** The keys of [groupby(by=[demographic])]: the distinct non-null values
    of the column, sorted. *)
Definition group_keys (demographic : string) (rows : Students) : list string :=
  sort String.leb
    (unique (flat_map (fun r => match demographics r demographic with
                                | Some l => [l]
                                | None => []
                                end) rows)).

Definition group (demographic : string) (rows : Students) (label : string)
  : Students :=
  filter (has_label demographic label) rows.

(** A row of [groupby(...).agg({measure_label: "var", "StudentKey": "count"})]
    and of [groupby(...).count()]. *)
Record group_row : Type := {
  g_label : string;
  g_var : float;
  g_StudentKey : Z
}.

Definition groupby_agg (demographic measure_label : string) (rows : Students)
  : list group_row :=
  map (fun label =>
         let g := group demographic rows label in
         {| g_label := label;
            g_var := pd.var (map (fun r => measures r measure_label) g);
            g_StudentKey := Z.of_nat (List.length (map StudentKey g)) |})
      (group_keys demographic rows).

(** A row of [groupby(...).count()], the columns the program reads. *)
Record count_row : Type := {
  c_label : string;
  c_StudentKey : Z
}.

Definition groupby_count (demographic : string) (rows : Students)
  : list count_row :=
  map (fun label =>
         let g := group demographic rows label in
         {| c_label := label;
            c_StudentKey := Z.of_nat (List.length (map StudentKey g)) |})
      (group_keys demographic rows).

Definition MAGIC_NUMBER : Z := 30.

Section Engine.
Context {scipy : Scipy} {fmt : PyFmt}.

(** *** utilities.py *)

Definition display_Markdown (text : string) : M unit := emit (Display text).

Definition log_message (message : string) : M unit :=
  display_Markdown message.

Definition log_info (message : string) : M unit :=
  display_Markdown ("✅ **" ++ message ++ "**")%string.

Definition log_warning (message : string) : M unit :=
  display_Markdown ("❕ **" ++ message ++ "**")%string.

Definition log_error (message : string) : M unit :=
  display_Markdown ("❌ **" ++ message ++ "**")%string.

Definition log_dataframe (df : DataFrame) : M unit :=
  log_message (to_markdown df).

Definition num_to_string (number : float) : string :=
  format_comma (round number 3).

(** *** scipy.stats, each call recorded in the trace *)

Definition f_oneway (data : list Series) : M (float * float) :=
  emit (Call (F_oneway data)) ;; ret (scipy_f_oneway data).

Definition kruskal (data : list Series) : M (float * float) :=
  emit (Call (Kruskal data)) ;; ret (scipy_kruskal data).

Definition tukey_hsd (data : list Series) : M TukeyHSDResult :=
  emit (Call (Tukey_hsd data)) ;; ret (scipy_tukey_hsd data).

Definition ttest_ind (a b : Series) (equal_var : bool) : M (float * float) :=
  emit (Call (Ttest_ind a b equal_var)) ;; ret (scipy_ttest_ind a b equal_var).

(** *** analysis_helper.py *)

(** The counts are numpy integers and the means and standard deviations
    numpy floats, as pandas returns them: the two divisions are numpy's,
    which give NaN or an infinity on a zero divisor (with a warning) where
    a division of two Python floats would raise [ZeroDivisionError].  The
    only call that can raise is [math.sqrt]. *)
Definition _calc_cohens_d (sample_1 sample_2 : Series) : M (string * string) :=
  let n1 := pd.count sample_1 in
  let m1 := pd.mean sample_1 in
  let s1 := pd.std sample_1 in

  let n2 := pd.count sample_2 in
  let m2 := pd.mean sample_2 in
  let s2 := pd.std sample_2 in

  s <- math_sqrt ((float_of_Z (n1 - 1) * square s1
                   + float_of_Z (n2 - 1) * square s2)
                  / float_of_Z (n1 + n2 - 2)) ;;
  let d := abs (m1 - m2) / s in

  let effect_size := "Very small" in
  let effect_size :=
    if (d >? 0.01) && (d <=? 0.2) then "Small"
    else if d <=? 0.5 then "Medium"
    else if d <=? 0.8 then "Large"
    else if d <=? 1.20 then "Very large"
    else "Huge" in

  ret (num_to_string d, effect_size).

(** [students[(students[demographic] == label) & not_null][measure_label]] *)
Definition select (students : Students) (demographic label : string)
           (not_null : student -> bool) (measure_label : string) : Series :=
  map (fun r => measures r measure_label)
      (filter (fun r => has_label demographic label r && not_null r) students).

Definition run_anova (students : Students) (demographic measure_label : string)
  : M bool :=
  let not_null := fun r => pd.notna (measures r measure_label) in

  let variances_all :=
    groupby_agg demographic measure_label (filter not_null students) in

  let included :=
    filter (fun g => (g_StudentKey g >? MAGIC_NUMBER)%Z) variances_all in

  if (len included <? 2)%nat then
    log_error
      ("Cannot run this ANOVA test because there are not enough populations"
       ++ newline ++ "with size greater than " ++ str_of_Z MAGIC_NUMBER
       ++ ".")%string ;;
    ret false
  else
    let excluded :=
      unique (map g_label
               (filter (fun g => (g_StudentKey g <=? MAGIC_NUMBER)%Z)
                       variances_all)) in
    (if (len excluded >? 0)%nat then
       log_warning
         ("ANOVA test will exclude these categories because they have a"
          ++ newline ++ "population size of less than "
          ++ str_of_Z MAGIC_NUMBER ++ ", although they will"
          ++ newline
          ++ "still appear in the boxplot for visual inspection: "
          ++ str_array excluded ++ ".")%string
     else ret tt) ;;

    let labels := unique (map g_label included) in

    let stat_by_demographic :=
      map (fun label =>
             (label, select students demographic label not_null measure_label))
          labels in
    let data := map snd stat_by_demographic in
    '(_stat, p_value) <- f_oneway data ;;

    '(_stat, p_value) <-
      (if p_value =? NaN then
         log_warning
           ("The differences in variance / standard deviation are too great for "
            ++ "ANOVA (homoscedasticity violation). Trying Kruskal-Wallis instead.")%string ;;
         kruskal data
       else ret (_stat, p_value)) ;;

    log_message
      ("Hypothesis: the difference in " ++ measure_label ++ " by "
       ++ demographic ++ " is not statistically significant.")%string ;;
    (if p_value >? 0.05 then
       log_info
         ("Hypothesis upheld: difference is not significant. P value: "
          ++ num_to_string p_value)%string
     else
       log_error
         ("Hypothesis rejected: there is a significant difference. P value: "
          ++ num_to_string p_value)%string ;;

       tukey <- tukey_hsd data ;;

       let columns :=
         ["Label 1"; "Label 2"; "Stat"; "p Value"; "Low CI"; "High CI";
          "Effect Size"] in
       let rows := [] in

       let conf_interval := confidence_interval tukey in
       rows <-
         for_each (range (len labels)) (fun i rows =>
           for_each (range (len labels)) (fun j rows =>
             if (j <=? i)%nat then ret rows
             else
               let stat := num_to_string (statistic tukey i j) in
               let p := num_to_string (pvalue tukey i j) in
               let low := num_to_string (low conf_interval i j) in
               let high := num_to_string (high conf_interval i j) in
               label_i <- getitem labels i ;;
               label_j <- getitem labels j ;;
               sample_i <- dict_getitem stat_by_demographic label_i ;;
               sample_j <- dict_getitem stat_by_demographic label_j ;;
               effect_size <- _calc_cohens_d sample_i sample_j ;;
               ret (rows ++ [[Str label_i; Str label_j; Str stat; Str p;
                              Str low; Str high;
                              Tuple (fst effect_size) (snd effect_size)]]))
             rows) rows ;;

       tukey_output <- new_DataFrame columns rows ;;
       tukey_output <- sort_values "p Value" tukey_output ;;
       log_dataframe tukey_output) ;;

    ret true.

Definition run_t_test (students : Students) (demographic measure_label : string)
  : M bool :=
  let not_null := fun r => pd.notna (measures r measure_label) in

  let grouped := filter not_null students in

  let group_count := groupby_count demographic grouped in
  let categories :=
    unique (map c_label
             (filter (fun g => (c_StudentKey g >? MAGIC_NUMBER)%Z)
                     group_count)) in

  if (len categories <? 2)%nat then
    let query := fun g => (c_StudentKey g <=? MAGIC_NUMBER)%Z in
    log_error
      ("Cannot run this t-test because one or both categories have a "
       ++ "population size of less than " ++ str_of_Z MAGIC_NUMBER ++ ": "
       ++ str_array (unique (map c_label (filter query group_count))))%string ;;
    ret false
  else
    category_0 <- getitem categories 0 ;;
    category_1 <- getitem categories 1 ;;
    let cat_0 := select students demographic category_0 not_null measure_label in
    let cat_1 := select students demographic category_1 not_null measure_label in

    '(_stat, p_value) <- ttest_ind cat_0 cat_1 false ;;

    log_message
      ("Hypothesis: the difference in " ++ measure_label ++ " for "
       ++ demographic ++ " is not statistically significant.")%string ;;
    (if p_value >? 0.05 then
       log_info
         ("Hypothesis upheld: difference is not significant. P value: "
          ++ num_to_string p_value)%string
     else
       log_error
         ("Hypothesis rejected: there is a significant difference. P value: "
          ++ num_to_string p_value)%string ;;

       cohens_d <- _calc_cohens_d cat_0 cat_1 ;;
       log_warning
         ("Effect size: " ++ fst cohens_d ++ ", " ++ snd cohens_d)%string) ;;

    let cat_0_stats := pd.describe cat_0 in
    let cat_1_stats := pd.describe cat_1 in
    stats <-
      new_DataFrame
        ["Label"; "Count"; "Mean"; "StD"; "Min"; "Max"]
        [ [ Str category_0;
            Str (num_to_string (pd.d_count cat_0_stats));
            Str (num_to_string (pd.d_mean cat_0_stats));
            Str (num_to_string (pd.d_std cat_0_stats));
            Str (num_to_string (pd.d_max cat_0_stats));
            Str (num_to_string (pd.d_min cat_0_stats)) ];
          [ Str category_1;
            Str (num_to_string (pd.d_count cat_1_stats));
            Str (num_to_string (pd.d_mean cat_1_stats));
            Str (num_to_string (pd.d_std cat_1_stats));
            Str (num_to_string (pd.d_max cat_1_stats));
            Str (num_to_string (pd.d_min cat_1_stats)) ] ] ;;
    log_dataframe stats ;;

    ret true.

End Engine.

(** ** A concrete setting, to run the engines on sample data

    [numpy_fmt] renders numbers as numpy and Python do for the values this
    program formats; [oracle] is a scipy that reports given p-values. *)

Module Sample.

Definition two_52 : float := 4503599627370496.

(** C's [rint]: to the nearest integer, ties to even, keeping the sign. *)
Definition rint (y : float) : float :=
  if y =? 0 then y
  else if abs y <? two_52 then
    if y <? 0 then - ((abs y + two_52) - two_52)
    else (y + two_52) - two_52
  else y.

(** [round] of a numpy float64: scale, [rint], scale back. *)
Definition np_round (x : float) (ndigits : Z) : float :=
  let factor := float_of_Z (10 ^ ndigits) in
  rint (x * factor) / factor.

(** The thousandths in a finite float, rounded to the nearest integer. *)
Definition thousandths (x : float) : Z :=
  match Prim2SF x with
  | S754_finite _ m e =>
      match e with
      | Zneg p => (Zpos m * 1000 + 2 ^ (Zpos p - 1)) / 2 ^ Zpos p
      | _ => Zpos m * 1000 * 2 ^ e
      end
  | _ => 0
  end%Z.

(** Digits in groups of three, separated by commas. *)
Fixpoint group_digits (fuel : nat) (n : Z) : string :=
  match fuel with
  | O => str_of_Z n
  | S fuel' =>
      if (n <? 1000)%Z then str_of_Z n
      else
        let r := (n mod 1000)%Z in
        (group_digits fuel' (n / 1000) ++ ","
         ++ (if (r <? 10)%Z then "00" else if (r <? 100)%Z then "0" else "")
         ++ str_of_Z r)%string
  end.

Definition fraction_digits (r : Z) : string :=
  if (r mod 100 =? 0)%Z then str_of_Z (r / 100)
  else if (r mod 10 =? 0)%Z then
    ((if (r <? 100)%Z then "0" else "") ++ str_of_Z (r / 10))%string
  else
    ((if (r <? 10)%Z then "00" else if (r <? 100)%Z then "0" else "")
     ++ str_of_Z r)%string.

(** ["{:,}".format(x)] for a float that [round(_, 3)] returned and that
    is below 10^16 in magnitude (Python turns to exponent notation from
    there on): the shortest decimal text, with a digit after the point
    and commas between the thousands. *)
Definition py_format_comma (x : float) : string :=
  if is_nan x then "nan"
  else if x =? infinity then "inf"
  else if x =? neg_infinity then "-inf"
  else
    let k := thousandths x in
    let sign := if (x <? 0) || ((x =? 0) && (1 / x <? 0)) then "-" else "" in
    (sign ++ group_digits 32 (k / 1000) ++ "."
     ++ fraction_digits (k mod 1000))%string.

Fixpoint join (sep : string) (l : list string) : string :=
  match l with
  | [] => ""
  | [x] => x
  | x :: l' => (x ++ sep ++ join sep l')%string
  end.

(** [str] of a one-line numpy array of strings. *)
Definition np_str_array (labels : list string) : string :=
  ("[" ++ join " " (map (fun l => "'" ++ l ++ "'") labels) ++ "]")%string.

Definition cell_text (c : cell) : string :=
  match c with
  | Str s => s
  | Tuple a b => ("('" ++ a ++ "', '" ++ b ++ "')")%string
  end.

Definition md_line (cells : list string) : string :=
  ("| " ++ join " | " cells ++ " |")%string.

(** A pipe table, one line per row; the padding and alignment that
    [tabulate] adds are left out. *)
Definition md_table (df : DataFrame) : string :=
  join newline
    (md_line (columns df)
     :: md_line (map (fun _ => "---") (columns df))
     :: map (fun r => md_line (map cell_text r)) (data df)).

#[local] Instance numpy_fmt : PyFmt := {|
  round := np_round;
  format_comma := py_format_comma;
  str_array := np_str_array;
  to_markdown := md_table
|}.

(** A scipy whose omnibus tests report [anova_p], whose two-sample test
    reports [ttest_p] and whose range test reports the matrix
    [tukey_p]. *)
Definition oracle (anova_p ttest_p : float) (tukey_p : nat -> nat -> float)
  : Scipy := {|
  scipy_f_oneway := fun _ => (1, anova_p);
  scipy_kruskal := fun _ => (1, anova_p);
  scipy_tukey_hsd := fun _ =>
    {| statistic := fun _ _ => 1;
       pvalue := tukey_p;
       confidence_interval :=
         {| low := fun _ _ => 0; high := fun _ _ => 2 |} |};
  scipy_ttest_ind := fun _ _ _ => (1, ttest_p)
|}.

(** [n] students of one label: keys from [key] on, outcome [a] for the
    even and [b] for the odd ones. *)
Fixpoint cohort (label : string) (a b : float) (key : Z) (n : nat)
  : Students :=
  match n with
  | O => []
  | S n' =>
      {| StudentKey := key;
         demographics := fun _ => Some label;
         measures := fun _ => a |}
      :: cohort label b a (key + 1) n'
  end.

(** Two and three subgroups of 31 students, each with a key and an
    outcome. *)
Definition two_cohorts : Students :=
  cohort "A" 80 82 1 31 ++ cohort "B" 90 96 101 31.

Definition three_cohorts : Students :=
  two_cohorts ++ cohort "C" 70 71 201 31.

(** Two subgroups of 31 students who all have the same outcome. *)
Definition constant_cohorts : Students :=
  cohort "A" 1 1 1 31 ++ cohort "B" 1 1 101 31.

(** The one-way ANOVA is undefined (NaN), as on constant equal samples. *)
Definition anova_undefined : Scipy :=
  oracle nan 0.5 (fun _ _ => 0.5).

(** Welch's test gives a p-value of exactly 0.05. *)
Definition welch_005 : Scipy :=
  oracle 0.5 0.05 (fun _ _ => 0.5).

(** No test finds a significant difference. *)
Definition nothing_significant : Scipy :=
  oracle 0.5 0.5 (fun _ _ => 0.5).

(** A significant omnibus test, and p-values of 0.0004 for the samples at
    positions 0 and 1, 0.0001 for those at 0 and 2, 0.03 otherwise. *)
Definition close_p_values : Scipy :=
  oracle 0.0001 0.0001
         (fun i j =>
            match i, j with
            | O, S O => 0.0004
            | O, S (S O) => 0.0001
            | _, _ => 0.03
            end).

End Sample.

(** ** The locals of [_calc_cohens_d], named

    [s], [d] and the chain of comparisons on [d], as functions of the two
    samples, to state what [_calc_cohens_d] returns. *)

Definition pooled_variance (sample_1 sample_2 : Series) : float :=
  (float_of_Z (pd.count sample_1 - 1) * square (pd.std sample_1)
   + float_of_Z (pd.count sample_2 - 1) * square (pd.std sample_2))
  / float_of_Z (pd.count sample_1 + pd.count sample_2 - 2).

Definition pooled_sd (sample_1 sample_2 : Series) : float :=
  sqrt (pooled_variance sample_1 sample_2).

Definition cohens_d (sample_1 sample_2 : Series) : float :=
  abs (pd.mean sample_1 - pd.mean sample_2) / pooled_sd sample_1 sample_2.

Definition effect_size_label (d : float) : string :=
  if (d >? 0.01) && (d <=? 0.2) then "Small"
  else if d <=? 0.5 then "Medium"
  else if d <=? 0.8 then "Large"
  else if d <=? 1.20 then "Very large"
  else "Huge".

(** A computation signals an error when it raises. *)
Definition signals_error {A} (m : M A) : Prop := exists e, result m = Raise e.

(** ** The locals of [run_anova] and [run_t_test], named

    What the two engines compute on the way, as functions of their three
    arguments, to state what they show and return. *)

Section Locals.
Context {scipy : Scipy} {fmt : PyFmt}.
Variables (students : Students) (demographic measure_label : string).

(** [not_null], row by row *)
Definition not_null (r : student) : bool :=
  pd.notna (measures r measure_label).

(** The outcome values of the rows of one label that have one. *)
Definition subgroup (label : string) : Series :=
  select students demographic label not_null measure_label.

(** The number of non-missing outcome values among the rows of a label,
    counted on the dataset itself. *)
Definition outcome_count (label : string) : Z :=
  pd.count (map (fun r => measures r measure_label)
                (filter (has_label demographic label) students)).

(** [labels] of [run_anova] *)
Definition anova_labels : list string :=
  unique (map g_label
           (filter (fun g => (g_StudentKey g >? MAGIC_NUMBER)%Z)
                   (groupby_agg demographic measure_label
                                (filter not_null students)))).

(** [excluded] of [run_anova] *)
Definition anova_excluded : list string :=
  unique (map g_label
           (filter (fun g => (g_StudentKey g <=? MAGIC_NUMBER)%Z)
                   (groupby_agg demographic measure_label
                                (filter not_null students)))).

(** [data] of [run_anova] *)
Definition anova_data : list Series := map subgroup anova_labels.

(** The p-value of the one-way ANOVA on [data]. *)
Definition anova_p_value : float := snd (scipy_f_oneway anova_data).

Definition anova_cannot_run : event :=
  Display
    ("❌ **"
     ++ ("Cannot run this ANOVA test because there are not enough populations"
         ++ newline ++ "with size greater than " ++ str_of_Z MAGIC_NUMBER
         ++ ".")
     ++ "**")%string.

Definition anova_exclusion_warning : list event :=
  if (len anova_excluded >? 0)%nat then
    [Display
       ("❕ **"
        ++ ("ANOVA test will exclude these categories because they have a"
            ++ newline ++ "population size of less than "
            ++ str_of_Z MAGIC_NUMBER ++ ", although they will"
            ++ newline
            ++ "still appear in the boxplot for visual inspection: "
            ++ str_array anova_excluded ++ ".")
        ++ "**")%string]
  else [].

Definition kruskal_warning : event :=
  Display
    ("❕ **"
     ++ ("The differences in variance / standard deviation are too great for "
         ++ "ANOVA (homoscedasticity violation). Trying Kruskal-Wallis instead.")
     ++ "**")%string.

Definition hypothesis (preposition : string) : event :=
  Display
    ("Hypothesis: the difference in " ++ measure_label ++ preposition
     ++ demographic ++ " is not statistically significant.")%string.

Definition upheld (p_value : float) : event :=
  Display
    ("✅ **"
     ++ ("Hypothesis upheld: difference is not significant. P value: "
         ++ num_to_string p_value)
     ++ "**")%string.

Definition rejected (p_value : float) : event :=
  Display
    ("❌ **"
     ++ ("Hypothesis rejected: there is a significant difference. P value: "
         ++ num_to_string p_value)
     ++ "**")%string.

(** The row that the loops of [run_anova] append for the positions
    [i < j]. *)
Definition posthoc_row (i j : nat) : list cell :=
  let tukey := scipy_tukey_hsd anova_data in
  let label_i := nth i anova_labels "" in
  let label_j := nth j anova_labels "" in
  let d := cohens_d (subgroup label_i) (subgroup label_j) in
  [ Str label_i; Str label_j;
    Str (num_to_string (statistic tukey i j));
    Str (num_to_string (pvalue tukey i j));
    Str (num_to_string (low (confidence_interval tukey) i j));
    Str (num_to_string (high (confidence_interval tukey) i j));
    Tuple (num_to_string d) (effect_size_label d) ].

(** The positions the two loops visit without [continue], in order. *)
Definition posthoc_pairs (n : nat) : list (nat * nat) :=
  flat_map (fun i =>
              flat_map (fun j => if (j <=? i)%nat then [] else [(i, j)])
                       (range n))
           (range n).

(** [rows] of [run_anova], after the loops *)
Definition posthoc_rows : list (list cell) :=
  map (fun ij => posthoc_row (fst ij) (snd ij))
      (posthoc_pairs (len anova_labels)).

(** [tukey_output] of [run_anova], after [sort_values] *)
Definition posthoc_table : DataFrame :=
  {| columns := ["Label 1"; "Label 2"; "Stat"; "p Value"; "Low CI";
                 "High CI"; "Effect Size"];
     data := sort (fun r1 r2 => cell_leb (cell_at 3 r1) (cell_at 3 r2))
                  posthoc_rows |}.

(** The text of a cell of a row. *)
Definition text_at (i : nat) (row : list cell) : string :=
  match cell_at i row with
  | Str s => s
  | Tuple a _ => a
  end.

(** [categories] of [run_t_test] *)
Definition t_test_categories : list string :=
  unique (map c_label
           (filter (fun g => (c_StudentKey g >? MAGIC_NUMBER)%Z)
                   (groupby_count demographic (filter not_null students)))).

Definition t_test_small : list string :=
  unique (map c_label
           (filter (fun g => (c_StudentKey g <=? MAGIC_NUMBER)%Z)
                   (groupby_count demographic (filter not_null students)))).

Definition t_test_cannot_run : event :=
  Display
    ("❌ **"
     ++ ("Cannot run this t-test because one or both categories have a "
         ++ "population size of less than " ++ str_of_Z MAGIC_NUMBER ++ ": "
         ++ str_array t_test_small)
     ++ "**")%string.

(** [cat_0] and [cat_1] of [run_t_test] *)
Definition cat_0 : Series := subgroup (nth 0 t_test_categories "").
Definition cat_1 : Series := subgroup (nth 1 t_test_categories "").

(** The p-value of Welch's test on [cat_0] and [cat_1]. *)
Definition t_test_p_value : float := snd (scipy_ttest_ind cat_0 cat_1 false).

Definition effect_size_warning : event :=
  Display
    ("❕ **"
     ++ ("Effect size: " ++ num_to_string (cohens_d cat_0 cat_1) ++ ", "
         ++ effect_size_label (cohens_d cat_0 cat_1))
     ++ "**")%string.

(** The row of [stats] for one category. *)
Definition stats_row (category : string) (cat : Series) : list cell :=
  [ Str category;
    Str (num_to_string (float_of_Z (pd.count cat)));
    Str (num_to_string (pd.mean cat));
    Str (num_to_string (pd.std cat));
    Str (num_to_string (pd.max cat));
    Str (num_to_string (pd.min cat)) ].

(** [stats] of [run_t_test] *)
Definition stats_table : DataFrame :=
  {| columns := ["Label"; "Count"; "Mean"; "StD"; "Min"; "Max"];
     data := [ stats_row (nth 0 t_test_categories "") cat_0;
               stats_row (nth 1 t_test_categories "") cat_1 ] |}.

(** The cell of a table under a column, in a given row. *)
Definition cell_under (df : DataFrame) (col : string) (row : nat)
  : option cell :=
  match index_of col (columns df) with
  | Some i => nth_error (nth row (data df) []) i
  | None => None
  end.

End Locals.

(** A trace runs no test when it holds no call of [scipy.stats]. *)
Definition no_test_run (t : list event) : Prop := forall c, ~ In (Call c) t.

(** ** Notions the statements use *)

(** How many elements of a list pass a test. *)
Definition count_if {A} (f : A -> bool) (l : list A) : nat :=
  List.length (filter f l).

Section Notions.
Variables (students : Students) (demographic measure_label : string).

(** A label passes the size filter when it has more than [MAGIC_NUMBER]
    non-missing outcome values in the dataset. *)
Definition eligible (label : string) : Prop :=
  (MAGIC_NUMBER < outcome_count students demographic measure_label label)%Z.

Definition at_least_two_eligible : Prop :=
  exists l1 l2, l1 <> l2 /\ eligible l1 /\ eligible l2.

(** The samples a call of [scipy.stats] is given. *)
Definition samples_of (c : libcall) : list Series :=
  match c with
  | F_oneway data | Kruskal data | Tukey_hsd data => data
  | Ttest_ind a b _ => [a; b]
  end.

(** A sample is tested in a trace when some call of the trace is given it. *)
Definition tested (t : list event) (s : Series) : Prop :=
  exists c, In (Call c) t /\ In s (samples_of c).

(** A label takes part in the tests of a run when its outcome values are
    tested in the trace of the run. *)
Definition participates {A} (run : M A) (label : string) : Prop :=
  tested (trace run) (subgroup students demographic measure_label label).

(** A row of the post-hoc table is about the unordered pair [{a, b}]. *)
Definition is_pair (a b : string) (row : list cell) : bool :=
  (String.eqb (text_at 0 row) a && String.eqb (text_at 1 row) b)
  || (String.eqb (text_at 0 row) b && String.eqb (text_at 1 row) a).

End Notions.

Section Order.
Context {scipy : Scipy} {fmt : PyFmt}.
Variables (students : Students) (demographic measure_label : string).

(** The positions of the rows of the post-hoc table, in the order of the
    table: the pairs of the loops, sorted as [sort_values] sorts their
    rows. *)
Definition posthoc_order : list (nat * nat) :=
  sort (fun ij kl =>
          cell_leb
            (cell_at 3 (posthoc_row students demographic measure_label
                                    (fst ij) (snd ij)))
            (cell_at 3 (posthoc_row students demographic measure_label
                                    (fst kl) (snd kl))))
       (posthoc_pairs (len (anova_labels students demographic measure_label))).

(** The p-value Tukey's test gave for the pair of a row. *)
Definition posthoc_p_value (ij : nat * nat) : float :=
  pvalue (scipy_tukey_hsd (anova_data students demographic measure_label))
         (fst ij) (snd ij).

(** The rows of the table are in ascending order of their p-values. *)
Definition ascending_by_p_value : Prop :=
  Sorted (fun ij kl => (posthoc_p_value ij <=? posthoc_p_value kl) = true)
         posthoc_order.

End Order.

(** * The notebook around the engines

    [analysis.py], [create_box_plots] of [analysis_helper.py], and
    [_get_db_adapter] and the handler of the run button of
    [notebook_ui.py]. *)

(** ** Constants of utilities.py *)

Module Constants.
Definition SCHOOL : string := "School".
Definition LEA : string := "Local Education Agency".
Definition ATTENDANCE : string := "Attendance Rate".
Definition BEHAVIOR : string := "Behavior".
Definition COURSE_PERFORMANCE : string := "Course Performance".
End Constants.

(** ** Effects of the notebook *)

(** A database adapter, as made by the two constructors of
    [edfi_sql_adapter] that [_get_db_adapter] calls. *)
Inductive Adapter : Type :=
| mssql_adapter_with_integrated_security
    (server database : string) (port : Z) (encrypt trust_certificate : bool)
| mssql_adapter
    (username password server database : string) (port : Z)
    (encrypt trust_certificate : bool).

(** What a Python exception of the notebook is: one raised by an engine,
    the [RuntimeError] of [_get_db_adapter], the [ValueError] of [int],
    or any other one, of a library, with its text. *)
Inductive py_error : Type :=
| Engine_error (e : exn)
| RuntimeError (msg : string)
| Int_error (text : string)
| Exception (text : string).

Inductive completion (A : Type) : Type :=
| Done (a : A)
| Failed (e : py_error).
Arguments Done {A} a.
Arguments Failed {A} e.

(** A figure: [sns.displot(data=students, x=..., kde=True)], and the box
    plots of [create_box_plots] (the call of [sns.catplot] with its [x],
    [order] and [y], the title; [wrap_labels] then re-renders the tick
    labels of the figure, which is not modelled further). *)
Inductive chart : Type :=
| Displot (x : string)
| Box_plots (x : string) (order : list (option string)) (y title : string).

(** What a run of the notebook does, in order: what the engines and the
    loggers show, the chart style being set, an attempt to load a table
    (a call of [_get_lea_students] or [_get_school_students] with its
    query, whether the connection and the read succeed or not), an
    output widget being displayed, a figure being drawn. *)
Inductive nb_event : Type :=
| Shown (e : event)
| Chart_style
| Read_sql (query : string)
| Output_widget
| Plot (c : chart).

Definition N (A : Type) : Type := (completion A * list nb_event)%type.

Definition nret {A} (a : A) : N A := (Done a, []).

Definition nraise {A} (e : py_error) : N A := (Failed e, []).

Definition nbind {A B} (m : N A) (k : A -> N B) : N B :=
  match m with
  | (Done a, t) => let (r, t') := k a in (r, t ++ t')
  | (Failed e, t) => (Failed e, t)
  end.

Definition nemit (ev : nb_event) : N unit := (Done tt, [ev]).

(** [try: m  except Exception as err: handler err] *)
Definition try_except {A} (m : N A) (handler : py_error -> N A) : N A :=
  match m with
  | (Done a, t) => (Done a, t)
  | (Failed e, t) => let (r, t') := handler e in (r, t ++ t')
  end.

(** A computation of the engines, run in the notebook. *)
Definition lift {A} (m : M A) : N A :=
  (match fst m with
   | Ok a => Done a
   | Raise e => Failed (Engine_error e)
   end,
   map Shown (snd m)).

(** [str(err)] *)
Definition str_of_error (e : py_error) : string :=
  match e with
  | Engine_error (ValueError msg) => msg
  | Engine_error KeyError => "KeyError"
  | Engine_error IndexError => "IndexError"
  | RuntimeError msg => msg
  | Int_error text => text
  | Exception text => text
  end.

Declare Scope nb_scope.
Delimit Scope nb_scope with nb.
Notation "x <- m ;; k" := (nbind m (fun x => k))
  (at level 61, m at next level, right associativity) : nb_scope.
Notation "m ;; k" := (nbind m (fun _ => k))
  (at level 61, right associativity) : nb_scope.

Definition dquote : string := String (ascii_of_nat 34) EmptyString.

(** The lines of a text written over several lines. *)
Fixpoint lines (l : list string) : string :=
  match l with
  | [] => ""
  | [x] => x
  | x :: l' => (x ++ newline ++ lines l')%string
  end.

(** ** pandas, on a column of labels *)

(** [Series.drop_duplicates()]: first occurrences, a null being the
    duplicate of a null. *)
Fixpoint drop_duplicates (col : list (option string)) : list (option string) :=
  match col with
  | [] => []
  | x :: col' =>
      x :: filter (fun y => match x, y with
                            | Some a, Some b => negb (String.eqb a b)
                            | None, None => false
                            | _, _ => true
                            end)
                  (drop_duplicates col')
  end.

Definition notnull (x : option string) : bool :=
  match x with Some _ => true | None => false end.

Definition values (col : list (option string)) : list string :=
  flat_map (fun x => match x with Some a => [a] | None => [] end) col.

(** [Series.sort_values()]: ascending, the nulls last. *)
Definition sort_values_na_last (col : list (option string))
  : list (option string) :=
  map Some (sort String.leb (values col))
  ++ filter (fun x => negb (notnull x)) col.

(** What reading a table gives: its rows, or the text of the exception
    raised on the way ([adapter.engine.connect()], [pd.read_sql]). *)
Class Database : Type := {
  pd_read_sql : string -> Adapter -> Students + string
}.

Definition GET_LEA_STUDENTS : string := "select * from edfi_dei.leaStudents".
Definition GET_SCHOOL_STUDENTS : string :=
  "select * from edfi_dei.schoolStudents".
Definition MEASURE_ATTENDANCE : string := "AttendanceRate".
Definition MEASURE_DISCIPLINE : string := "NumberDisciplineIncidents".
Definition MEASURE_COURSE_PERF : string := "AverageGrade".

Definition DEMOGRAPHIC_RACE : string := "Race".
Definition DEMOGRAPHIC_LATINX : string := "IsHispanic".
Definition DEMOGRAPHIC_ENGLISH : string := "LimitedEnglishProficiency".
Definition DEMOGRAPHIC_SEX : string := "Sex".
Definition DEMOGRAPHIC_DISABILITY : string := "Disability".
Definition DEMOGRAPHIC_LANGUAGE : string := "Language".
Definition DEMOGRAPHIC_TRIBAL : string := "TribalAffiliation".

Section Notebook.
Context {scipy : Scipy} {fmt : PyFmt} {db : Database}.
Local Open Scope nb_scope.

(** *** analysis_helper.py *)

(** [labels] of [create_box_plots] *)
Definition plot_order (students : Students) (demographic : string)
  : list (option string) :=
  sort_values_na_last
    (drop_duplicates (map (fun r => demographics r demographic) students)).

Definition create_box_plots (students : Students)
           (demographic measure title : string) : N unit :=
  let labels := plot_order students demographic in
  nemit (Plot (Box_plots demographic labels measure title)).

(** *** analysis.py *)

Definition _get_lea_students (adapter : Adapter) : N Students :=
  nemit (Read_sql GET_LEA_STUDENTS) ;;
  match pd_read_sql GET_LEA_STUDENTS adapter with
  | inl students => nret students
  | inr text => nraise (Exception text)
  end.

Definition _get_school_students (adapter : Adapter) : N Students :=
  nemit (Read_sql GET_SCHOOL_STUDENTS) ;;
  match pd_read_sql GET_SCHOOL_STUDENTS adapter with
  | inl students => nret students
  | inr text => nraise (Exception text)
  end.

Definition _prepare_for_charts : N unit := nemit Chart_style.

(** The block [with output:] shows what runs inside it in the widget
    displayed just before: the events follow one another in the trace.
    (An exception raised inside the block would be shown there as well;
    the engines raise none.) *)
Definition _exec_anova (students : Students)
           (demographic measure_label measure : string) : N unit :=
  lift (log_message ("### " ++ measure)%string) ;;
  nemit Output_widget ;;
  t <- lift (run_anova students demographic measure_label) ;;
  if t : bool then create_box_plots students demographic measure_label measure
  else nret tt.

Definition _exec_t_test (students : Students)
           (demographic measure_label measure : string) : N unit :=
  lift (log_message ("### " ++ measure)%string) ;;
  nemit Output_widget ;;
  t <- lift (run_t_test students demographic measure_label) ;;
  if t : bool then create_box_plots students demographic measure_label measure
  else nret tt.

Definition _run_detailed_analysis (students : Students)
           (measure measure_label : string) : N unit :=
  _exec_anova students DEMOGRAPHIC_RACE measure_label
              (measure ++ " by Race")%string ;;
  _exec_t_test students DEMOGRAPHIC_LATINX measure_label
               (measure ++ " by Hispanic/Latino Ethnicity")%string ;;
  _exec_t_test students DEMOGRAPHIC_ENGLISH measure_label
               (measure ++ " by English Proficiency")%string ;;
  _exec_anova students DEMOGRAPHIC_SEX measure_label
              (measure ++ " by Sex/Gender")%string ;;
  _exec_anova students DEMOGRAPHIC_DISABILITY measure_label
              (measure ++ " by Disability")%string ;;
  _exec_anova students DEMOGRAPHIC_LANGUAGE measure_label
              (measure ++ " by Language")%string ;;
  _exec_anova students DEMOGRAPHIC_TRIBAL measure_label
              (measure ++ " by Tribal Affiliation")%string.

Definition big_picture_intro (measure : string) : string :=
  lines
    [ ("The following chart contains a histogram of the " ++ measure
       ++ " for the entire student body,")%string;
      "with an overlay of the";
      "[kernel density estimation](https://en.wikipedia.org/wiki/Kernel_density_estimation)";
      "curve for the sample distribution." ].

Definition big_picture_outlook : string :=
  lines
    [ "Below, we will visually inspect relationships with the help of box plots and";
      "then look at T-test (comparing two samples) and ANOVA (comparing more than two";
      "samples) results to help determine if there are statistically significant";
      "differences between the results for different populations. These tests are";
      "appropriate when:";
      "";
      "* Samples are independent (groups are mutually exclusive)";
      "* Normal looking: sample size >= 30, or p > 0.05 in a test of normality";
      ("* For ANOVA, variances should be " ++ dquote ++ "equal" ++ dquote
       ++ ". The analysis will reject")%string;
      "  the standard one-way ANOVA if there is too much variation in variances / standard";
      "  deviations. In that case, we will turn to the Kruskal-Wallis test.";
      "  * Both test types, Anova and Kruskal-Wallis, will use 0.05 as the significance";
      "    level when evaluating the p-value result.";
      "* The T-test will be calculated using Welch's test, which accounts for unequal";
      "  variances.";
      "";
      "ANOVA tests will show _that there are differences_ without specifying _which_";
      "samples standout from the group. For that, we will perform _post hoc_ analysis";
      "using [Tukey's method](https://statisticsbyjim.com/anova/post-hoc-tests-anova/).";
      "";
      "For both the T-Test and ANOVA, when the null hypothesis is not supported,";
      "the notebook will calculate [Cohen's D](https://en.wikipedia.org/wiki/Effect_size#Cohen's_d)";
      "to give a sense of the overall effect size." ].

Definition _run_big_picture (students : Students)
           (measure measure_label : string) : N unit :=
  lift (log_message (big_picture_intro measure)) ;;
  nemit Output_widget ;;
  nemit (Plot (Displot measure_label)) ;;
  lift (log_message big_picture_outlook).

(** The two [return]s of [run_analysis], in the handler of the exception
    and on an unknown measure, are the [None] of [loaded] and of
    [selected]. *)
Definition run_analysis (adapter : Adapter) (ed_org_level measure : string)
  : N unit :=
  _prepare_for_charts ;;

  loaded <-
    try_except
      (students <-
         (if String.eqb ed_org_level Constants.SCHOOL
          then _get_school_students adapter
          else _get_lea_students adapter) ;;
       nret (Some students))
      (fun err =>
         lift (log_error "Could not load initial data set:") ;;
         lift (log_message ("```" ++ str_of_error err ++ "```")%string) ;;
         nret None) ;;
  match loaded with
  | None => nret tt
  | Some students =>
      selected <-
        (if String.eqb measure Constants.ATTENDANCE then
           nret (Some MEASURE_ATTENDANCE)
         else if String.eqb measure Constants.BEHAVIOR then
           nret (Some MEASURE_DISCIPLINE)
         else if String.eqb measure Constants.COURSE_PERFORMANCE then
           nret (Some MEASURE_COURSE_PERF)
         else
           lift (log_error "Invalid measure selection.") ;;
           nret None) ;;
      match selected with
      | None => nret tt
      | Some measure_label =>
          lift (log_message ("## " ++ measure ++ " Analysis for "
                             ++ ed_org_level ++ "s")%string) ;;
          _run_big_picture students measure measure_label ;;
          _run_detailed_analysis students measure measure_label
      end
  end.

End Notebook.

(** ** The traces of the notebook, named *)

Section NotebookTraces.
Context {scipy : Scipy} {fmt : PyFmt} {db : Database}.

(** What an analysis of one demographic leaves in the trace, given the
    trace of its engine. *)
Definition exec_trace (engine : list event) (students : Students)
           (demographic measure_label title : string) : list nb_event :=
  Shown (Display ("### " ++ title)%string)
  :: Output_widget
  :: map Shown engine
  ++ (if (len (anova_labels students demographic measure_label) <? 2)%nat
      then []
      else [Plot (Box_plots demographic (plot_order students demographic)
                            measure_label title)]).

(** The analyses of [_run_detailed_analysis], in order: the engine, the
    demographic and the end of the title. *)
Inductive engine_kind : Type := Anova | T_test.

Definition analysis_plan : list (engine_kind * string * string) :=
  [ (Anova, DEMOGRAPHIC_RACE, " by Race");
    (T_test, DEMOGRAPHIC_LATINX, " by Hispanic/Latino Ethnicity");
    (T_test, DEMOGRAPHIC_ENGLISH, " by English Proficiency");
    (Anova, DEMOGRAPHIC_SEX, " by Sex/Gender");
    (Anova, DEMOGRAPHIC_DISABILITY, " by Disability");
    (Anova, DEMOGRAPHIC_LANGUAGE, " by Language");
    (Anova, DEMOGRAPHIC_TRIBAL, " by Tribal Affiliation") ].

Definition engine_trace (kind : engine_kind) (students : Students)
           (demographic measure_label : string) : list event :=
  match kind with
  | Anova => trace (run_anova students demographic measure_label)
  | T_test => trace (run_t_test students demographic measure_label)
  end.

Definition detailed_trace (students : Students)
           (measure measure_label : string) : list nb_event :=
  flat_map (fun step =>
              exec_trace (engine_trace (fst (fst step)) students
                                       (snd (fst step)) measure_label)
                         students (snd (fst step)) measure_label
                         (measure ++ snd step)%string)
           analysis_plan.

Definition big_picture_trace (measure measure_label : string)
  : list nb_event :=
  [ Shown (Display (big_picture_intro measure));
    Output_widget;
    Plot (Displot measure_label);
    Shown (Display big_picture_outlook) ].

(** The table that [run_analysis] reads. *)
Definition query_of (ed_org_level : string) : string :=
  if String.eqb ed_org_level Constants.SCHOOL then GET_SCHOOL_STUDENTS
  else GET_LEA_STUDENTS.

(** The column of a measure, if it is one of the three. *)
Definition measure_label_of (measure : string) : option string :=
  if String.eqb measure Constants.ATTENDANCE then Some MEASURE_ATTENDANCE
  else if String.eqb measure Constants.BEHAVIOR then Some MEASURE_DISCIPLINE
  else if String.eqb measure Constants.COURSE_PERFORMANCE
       then Some MEASURE_COURSE_PERF
  else None.

Definition load_failure (text : string) : list nb_event :=
  [ Shown (Display "❌ **Could not load initial data set:**");
    Shown (Display ("```" ++ text ++ "```")%string) ].

Definition invalid_measure : nb_event :=
  Shown (Display "❌ **Invalid measure selection.**").

Definition analysis_heading (ed_org_level measure : string) : nb_event :=
  Shown (Display ("## " ++ measure ++ " Analysis for "
                  ++ ed_org_level ++ "s")%string).

(** The calls of [scipy.stats] in a trace of the notebook. *)
Definition calls_of (t : list nb_event) : list libcall :=
  flat_map (fun ev => match ev with
                      | Shown (Call c) => [c]
                      | _ => []
                      end) t.

(** The tables read in a trace of the notebook. *)
Definition reads_of (t : list nb_event) : list string :=
  flat_map (fun ev => match ev with
                      | Read_sql q => [q]
                      | _ => []
                      end) t.

(** The box plots of a trace of the notebook: demographic and title. *)
Definition box_plots_of (t : list nb_event) : list (string * string) :=
  flat_map (fun ev => match ev with
                      | Plot (Box_plots x _ _ title) => [(x, title)]
                      | _ => []
                      end) t.

End NotebookTraces.

(** ** Sample databases *)

Module SampleDb.

(** A database whose two tables hold the given rows. *)
Definition holding (students : Students) : Database :=
  {| pd_read_sql := fun _ _ => inl students |}.

(** A database that cannot be reached. *)
Definition unreachable (text : string) : Database :=
  {| pd_read_sql := fun _ _ => inr text |}.

(** A database with the table of the schools only. *)
Definition schools_only (students : Students) : Database :=
  {| pd_read_sql := fun query _ =>
       if String.eqb query "select * from edfi_dei.schoolStudents"
       then inl students
       else inr "Invalid object name 'edfi_dei.leaStudents'." |}.

Definition local_adapter : Adapter :=
  mssql_adapter_with_integrated_security "localhost" "EdFi_Ods" 1433
                                         false false.

End SampleDb.

(** ** notebook_ui.py: the adapter of the notebook *)

(** connection_parameters.py *)
Record ConnectionParameters : Type := {
  server : string;
  port : string;
  database : string;
  encrypt : bool;
  trust_certificate : bool;
  username : string;
  password : string
}.

(** What [_get_db_adapter] uses of Python and of the process: [str.strip],
    [int] of a text (the number, or the text of its [ValueError]) and
    [os.getenv]. *)
Class Runtime : Type := {
  str_strip : string -> string;
  py_int : string -> Z + string;
  os_getenv : string -> option string
}.

(** [text or default], on texts: the empty text is false. *)
Definition or_text (text default : string) : string :=
  if String.eqb text "" then default else text.

(** [os.getenv(name) or default] *)
Definition getenv_or {runtime : Runtime} (name default : string) : string :=
  match os_getenv name with
  | Some text => or_text text default
  | None => default
  end.

Section NotebookUi.
Context {scipy : Scipy} {fmt : PyFmt} {db : Database} {runtime : Runtime}.

(** The module's global [adapter] is the state that is passed along: the
    result of a call comes with the global after it.  Python evaluates
    the arguments of a constructor from left to right, so a failing
    [int] ends the call before the global is assigned. *)
Definition _get_db_adapter (params : option ConnectionParameters)
           (adapter : option Adapter)
  : completion Adapter * option Adapter :=
  match params with
  | None =>
      match adapter with
      | None =>
          (Failed (RuntimeError "Adapter has not been initialized yet."),
           adapter)
      | Some a => (Done a, adapter)
      end
  | Some params =>
      if String.eqb (str_strip (username params)) "" then
        match py_int (or_text (port params) "1433") with
        | inr text => (Failed (Int_error text), adapter)
        | inl number =>
            let a := mssql_adapter_with_integrated_security
                       (server params) (database params) number
                       (encrypt params) (trust_certificate params) in
            (Done a, Some a)
        end
      else
        let secret := getenv_or "MSSQL_PASSWORD" "" in
        match py_int (or_text (port params) "1433") with
        | inr text => (Failed (Int_error text), adapter)
        | inl number =>
            let a := mssql_adapter
                       (username params) secret
                       (server params) (database params) number
                       (encrypt params) (trust_certificate params) in
            (Done a, Some a)
        end
  end.

(** The handler of the run button, on the values of its two controls:
    [run_analysis(_get_db_adapter(), ed_org_level, measure)]. *)
Definition __on_run_click (ed_org_level measure : string)
           (adapter : option Adapter) : N unit * option Adapter :=
  match _get_db_adapter None adapter with
  | (Done a, adapter') => (run_analysis a ed_org_level measure, adapter')
  | (Failed e, adapter') => (nraise e, adapter')
  end.

(** Calls of [_get_db_adapter] with parameters, one after the other:
    the global after the last one. *)
Fixpoint after_calls (calls : list ConnectionParameters)
         (adapter : option Adapter) : option Adapter :=
  match calls with
  | [] => adapter
  | params :: calls' =>
      after_calls calls' (snd (_get_db_adapter (Some params) adapter))
  end.

End NotebookUi.

(** The parameters with another password. *)
Definition with_password (params : ConnectionParameters) (text : string)
  : ConnectionParameters :=
  {| server := server params;
     port := port params;
     database := database params;
     encrypt := encrypt params;
     trust_certificate := trust_certificate params;
     username := username params;
     password := text |}.

(** The password of an adapter that logs in with one. *)
Definition password_of (a : Adapter) : option string :=
  match a with
  | mssql_adapter _ secret _ _ _ _ _ => Some secret
  | mssql_adapter_with_integrated_security _ _ _ _ _ => None
  end.

Module SampleUi.

(** ASCII blanks removed at both ends. *)
Definition is_blank (c : ascii) : bool :=
  let n := nat_of_ascii c in
  ((9 <=? n) && (n <=? 13) || (n =? 32))%nat.

Fixpoint lstrip (s : string) : string :=
  match s with
  | String c s' => if is_blank c then lstrip s' else s
  | EmptyString => s
  end.

Fixpoint rstrip (s : string) : string :=
  match s with
  | String c s' =>
      match rstrip s' with
      | EmptyString => if is_blank c then EmptyString else String c EmptyString
      | rest => String c rest
      end
  | EmptyString => s
  end.

(** Decimal digits only; any other text is refused. *)
Definition int_of_digits (text : string) : Z + string :=
  match NilEmpty.uint_of_string text with
  | Some d =>
      if String.eqb text "" then
        inr ("invalid literal for int() with base 10: ''")%string
      else inl (Z.of_uint d)
  | None =>
      inr ("invalid literal for int() with base 10: '" ++ text ++ "'")%string
  end.

(** A process where [MSSQL_PASSWORD] is set and [DEI_DB_PASSWORD] is
    another text. *)
Definition process : Runtime := {|
  str_strip := fun s => rstrip (lstrip s);
  py_int := int_of_digits;
  os_getenv := fun name =>
    if String.eqb name "MSSQL_PASSWORD" then Some "from-mssql"
    else if String.eqb name "DEI_DB_PASSWORD" then Some "from-dei"
    else None
|}.

Definition sa_login : ConnectionParameters :=
  {| server := "localhost"; port := ""; database := "EdFi_Ods";
     encrypt := false; trust_certificate := true;
     username := "sa"; password := "from-dei" |}.

Definition bad_port : ConnectionParameters :=
  {| server := "localhost"; port := "14x3"; database := "EdFi_Ods";
     encrypt := false; trust_certificate := true;
     username := " "; password := "" |}.

End SampleUi.

(** ** Auxiliary notions on binary64 values *)

Module FloatOrder.

(** Not below zero: NaN, or a value whose sign bit is clear. *)
Definition sf_nonneg (x : spec_float) : bool :=
  match x with
  | S754_nan => true
  | S754_zero s | S754_infinity s | S754_finite s _ _ => negb s
  end.

Definition nonneg (x : float) : Prop := sf_nonneg (Prim2SF x) = true.

Definition is_num (x : spec_float) : Prop :=
  match x with S754_nan => False | _ => True end.

(** Where a value stands on the line: its class (infinite, finite of
    either sign, zero), then exponent and mantissa. [SFcompare] is the
    lexicographic order of the ranks. *)
Definition rank (x : spec_float) : Z * Z * Z :=
  match x with
  | S754_nan | S754_zero _ => (0, 0, 0)
  | S754_infinity true => (-2, 0, 0)
  | S754_infinity false => (2, 0, 0)
  | S754_finite true m e => (-1, - e, Zneg m)
  | S754_finite false m e => (1, e, Zpos m)
  end%Z.

Definition lt3 (a b : Z * Z * Z) : Prop :=
  let '(c1, e1, m1) := a in
  let '(c2, e2, m2) := b in
  (c1 < c2 \/ (c1 = c2 /\ (e1 < e2 \/ (e1 = e2 /\ m1 < m2))))%Z.

Definition le3 (a b : Z * Z * Z) : Prop := lt3 a b \/ a = b.

End FloatOrder.

(** * Properties *)

(** ** Binary64 facts, through the specification of the primitive floats *)

Module FloatFacts.
Import FloatOrder.

Lemma SFcompare_finite s1 m1 e1 s2 m2 e2 :
  SFcompare (S754_finite s1 m1 e1) (S754_finite s2 m2 e2)
  = Some (match s1, s2 with
          | true, false => Lt
          | false, true => Gt
          | false, false =>
              match (e1 ?= e2)%Z with Eq => (m1 ?= m2)%positive | c => c end
          | true, true =>
              match (e2 ?= e1)%Z with Eq => (m2 ?= m1)%positive | c => c end
          end).
Proof.
  destruct s1, s2; try reflexivity.
  simpl. rewrite (Z.compare_antisym e1 e2).
  change (PosDef.Pos.compare_cont Eq m1 m2) with (m1 ?= m2)%positive.
  rewrite (Pos.compare_antisym m1 m2).
  destruct (e1 ?= e2)%Z; reflexivity.
Qed.

Lemma lex_spec (e1 e2 : Z) (m1 m2 : positive) :
  match match (e1 ?= e2)%Z with Eq => (m1 ?= m2)%positive | c => c end with
  | Lt => (e1 < e2 \/ (e1 = e2 /\ Zpos m1 < Zpos m2))%Z
  | Eq => e1 = e2 /\ m1 = m2
  | Gt => (e2 < e1 \/ (e1 = e2 /\ Zpos m2 < Zpos m1))%Z
  end.
Proof.
  destruct (Z.compare_spec e1 e2); try lia.
  destruct (Pos.compare_spec m1 m2); lia.
Qed.

Lemma SFcompare_rank (x y : spec_float) :
  is_num x -> is_num y ->
  match SFcompare x y with
  | Some Lt => lt3 (rank x) (rank y)
  | Some Eq => rank x = rank y
  | Some Gt => lt3 (rank y) (rank x)
  | None => False
  end.
Proof.
  destruct x as [[]|[]| |[] mx ex], y as [[]|[]| |[] my ey];
    try (simpl; tauto); try (simpl; intros; lia);
    intros _ _; rewrite SFcompare_finite;
    match goal with
    | |- context [match (?e ?= ?e')%Z with
                  | Eq => (?a ?= ?b)%positive | Lt => Lt | Gt => Gt end] =>
        generalize (lex_spec e e' a b);
        destruct (match (e ?= e')%Z with
                  | Eq => (a ?= b)%positive | Lt => Lt | Gt => Gt end);
        simpl; intros; try lia
    end;
    match goal with H : _ /\ _ |- _ => destruct H; subst; reflexivity end.
Qed.

Lemma lt3_irrefl a b : lt3 a b -> a <> b.
Proof. destruct a as [[? ?] ?], b as [[? ?] ?]; simpl; intros H E; inversion E; lia. Qed.

Lemma lt3_asym a b : lt3 a b -> ~ lt3 b a.
Proof. destruct a as [[? ?] ?], b as [[? ?] ?]; simpl; lia. Qed.

Lemma lt3_trans a b c : lt3 a b -> lt3 b c -> lt3 a c.
Proof.
  destruct a as [[? ?] ?], b as [[? ?] ?], c as [[? ?] ?]; simpl; lia.
Qed.

Lemma SFcompare_nan (x y : spec_float) :
  SFcompare x y = None <-> ~ (is_num x /\ is_num y).
Proof.
  destruct x as [[]|[]| |[] mx ex], y as [[]|[]| |[] my ey]; simpl;
    split; try tauto; try discriminate; intros H; exfalso; apply H; tauto.
Qed.

Lemma SFltb_spec (x y : spec_float) :
  SFltb x y = true <-> is_num x /\ is_num y /\ lt3 (rank x) (rank y).
Proof.
  unfold SFltb. split.
  - intros H. destruct (SFcompare x y) as [[]|] eqn:E; try discriminate.
    assert (N : is_num x /\ is_num y).
    { destruct x, y; simpl in *; try tauto; discriminate. }
    destruct N as [Nx Ny]. generalize (SFcompare_rank x y Nx Ny).
    rewrite E. tauto.
  - intros (Nx & Ny & L). generalize (SFcompare_rank x y Nx Ny).
    destruct (SFcompare x y) as [[]|]; try tauto; intros R.
    + exfalso. apply (lt3_irrefl _ _ L R).
    + exfalso. apply (lt3_asym _ _ L R).
Qed.

Lemma SFleb_spec (x y : spec_float) :
  SFleb x y = true <-> is_num x /\ is_num y /\ le3 (rank x) (rank y).
Proof.
  unfold SFleb, le3. split.
  - intros H. destruct (SFcompare x y) as [[]|] eqn:E; try discriminate;
    assert (N : is_num x /\ is_num y)
      by (destruct x, y; simpl in *; try tauto; discriminate);
    destruct N as [Nx Ny]; generalize (SFcompare_rank x y Nx Ny);
    rewrite E; tauto.
  - intros (Nx & Ny & L). generalize (SFcompare_rank x y Nx Ny).
    destruct (SFcompare x y) as [[]|]; try tauto; intros R.
    exfalso. destruct L as [L|L].
    + apply (lt3_asym _ _ L R).
    + symmetry in L. apply (lt3_irrefl _ _ R L).
Qed.

Lemma SFleb_trans (x y z : spec_float) :
  SFleb x y = true -> SFleb y z = true -> SFleb x z = true.
Proof.
  rewrite !SFleb_spec. unfold le3.
  intros (Nx & Ny & [L1|L1]) (_ & Nz & [L2|L2]); repeat split; auto.
  - left; eapply lt3_trans; eauto.
  - left; congruence.
  - left; congruence.
  - right; congruence.
Qed.

Lemma SFleb_ltb_trans (x y z : spec_float) :
  SFleb x y = true -> SFltb y z = true -> SFltb x z = true.
Proof.
  rewrite SFleb_spec, !SFltb_spec. unfold le3.
  intros (Nx & Ny & [L1|L1]) (_ & Nz & L2); repeat split; auto.
  - eapply lt3_trans; eauto.
  - congruence.
Qed.

Lemma SFltb_not_leb (x y : spec_float) :
  SFltb x y = true -> SFleb y x = false.
Proof.
  intros H. apply not_true_is_false. revert H.
  rewrite SFleb_spec, SFltb_spec. unfold le3.
  intros (_ & _ & L) (_ & _ & [L'|L']).
  - apply (lt3_asym _ _ L L').
  - symmetry in L'. apply (lt3_irrefl _ _ L L').
Qed.

Lemma SFleb_not_ltb (x y : spec_float) :
  SFleb x y = true -> SFltb y x = false.
Proof.
  intros H. apply not_true_is_false. intros H'.
  apply SFltb_not_leb in H'. congruence.
Qed.

(** *** The same, on primitive floats *)

Lemma leb_trans (x y z : float) :
  (x <=? y) = true -> (y <=? z) = true -> (x <=? z) = true.
Proof. rewrite !leb_spec. apply SFleb_trans. Qed.

Lemma leb_ltb_trans (x y z : float) :
  (x <=? y) = true -> (y <? z) = true -> (x <? z) = true.
Proof. rewrite leb_spec, !ltb_spec. apply SFleb_ltb_trans. Qed.

Lemma ltb_not_leb (x y : float) : (x <? y) = true -> (y <=? x) = false.
Proof. rewrite leb_spec, ltb_spec. apply SFltb_not_leb. Qed.

Lemma leb_not_ltb (x y : float) : (x <=? y) = true -> (y <? x) = false.
Proof. rewrite leb_spec, ltb_spec. apply SFleb_not_ltb. Qed.

Lemma Prim2SF_nan (x : float) : Prim2SF x = S754_nan -> x = nan.
Proof. intros H. apply Prim2SF_inj. rewrite H. reflexivity. Qed.

Lemma is_nan_eq (x : float) : is_nan x = true <-> x = nan.
Proof.
  split; [|intros ->; reflexivity].
  unfold is_nan. rewrite FloatAxioms.eqb_spec. unfold SFeqb. intros H.
  apply Prim2SF_nan.
  destruct (Prim2SF x) eqn:E; try reflexivity; exfalso;
    match type of H with
    | context [SFcompare ?a ?a] =>
        assert (N : is_num a) by exact I;
        generalize (SFcompare_rank a a N N);
        destruct (SFcompare a a) as [[]|]; try discriminate;
        try tauto; intros L; apply (lt3_irrefl _ _ L eq_refl)
    end.
Qed.

(** *** Signs *)

Lemma round_nonneg (m e : Z) (l : location) :
  sf_nonneg (binary_round_aux prec emax false m e l) = true.
Proof.
  unfold binary_round_aux.
  destruct (shr_fexp prec emax m e l) as [mrs e'].
  destruct (shr_fexp prec emax _ e' loc_Exact) as [mrs' e''].
  destruct (shr_m mrs'); [| destruct (Z.leb _ _) |]; reflexivity.
Qed.

Lemma SFmul_nonneg (x y : spec_float) :
  sf_nonneg x = true -> sf_nonneg y = true ->
  sf_nonneg (SF64mul x y) = true.
Proof.
  destruct x as [[]|[]| |[] mx ex], y as [[]|[]| |[] my ey];
    simpl; try reflexivity; try discriminate; intros _ _.
  apply round_nonneg.
Qed.

Lemma SFsquare_nonneg (x : spec_float) : sf_nonneg (SF64mul x x) = true.
Proof.
  destruct x as [[]|[]| |[] mx ex]; try reflexivity; apply round_nonneg.
Qed.

Lemma SFadd_nonneg (x y : spec_float) :
  sf_nonneg x = true -> sf_nonneg y = true ->
  sf_nonneg (SF64add x y) = true.
Proof.
  destruct x as [[]|[]| |[] mx ex], y as [[]|[]| |[] my ey];
    simpl; try reflexivity; try discriminate; intros _ _.
  unfold binary_round.
  destruct (shl_align _ _ _) as [mz ez]. apply round_nonneg.
Qed.

Lemma SFdiv_nonneg (x y : spec_float) :
  sf_nonneg x = true -> sf_nonneg y = true ->
  sf_nonneg (SF64div x y) = true.
Proof.
  destruct x as [[]|[]| |[] mx ex], y as [[]|[]| |[] my ey];
    simpl; try reflexivity; try discriminate; intros _ _.
  destruct (SFdiv_core_binary _ _ _ _ _ _) as [[mz ez] lz].
  apply round_nonneg.
Qed.

Lemma SFsqrt_nonneg (x : spec_float) :
  sf_nonneg x = true -> sf_nonneg (SF64sqrt x) = true.
Proof.
  destruct x as [[]|[]| |[] mx ex];
    simpl; try reflexivity; try discriminate; intros _.
  destruct (SFsqrt_core_binary _ _ _ _) as [[mz ez] lz].
  apply round_nonneg.
Qed.

Lemma nonneg_nan : nonneg nan.
Proof. reflexivity. Qed.

Lemma nonneg_mul (x y : float) : nonneg x -> nonneg y -> nonneg (x * y).
Proof. unfold nonneg. rewrite mul_spec. apply SFmul_nonneg. Qed.

Lemma nonneg_square (x : float) : nonneg (square x).
Proof. unfold nonneg, square. rewrite mul_spec. apply SFsquare_nonneg. Qed.

Lemma nonneg_add (x y : float) : nonneg x -> nonneg y -> nonneg (x + y).
Proof. unfold nonneg. rewrite add_spec. apply SFadd_nonneg. Qed.

Lemma nonneg_div (x y : float) : nonneg x -> nonneg y -> nonneg (x / y).
Proof. unfold nonneg. rewrite div_spec. apply SFdiv_nonneg. Qed.

Lemma nonneg_sqrt (x : float) : nonneg x -> nonneg (sqrt x).
Proof. unfold nonneg. rewrite sqrt_spec. apply SFsqrt_nonneg. Qed.

Lemma nonneg_abs (x : float) : nonneg (abs x).
Proof.
  unfold nonneg. rewrite abs_spec. destruct (Prim2SF x); reflexivity.
Qed.

Lemma nonneg_of_uint63 (n : PrimInt63.int) : nonneg (of_uint63 n).
Proof.
  unfold nonneg. rewrite of_uint63_spec.
  pose proof (Uint63.to_Z_bounded n) as B.
  destruct (Uint63.to_Z n) as [|p|p]; simpl; try reflexivity; try lia.
  unfold binary_round.
  destruct (shl_align _ _ _) as [mz ez]. apply round_nonneg.
Qed.

Lemma nonneg_float_of_Z (z : Z) : (0 <= z)%Z -> nonneg (float_of_Z z).
Proof.
  destruct z; simpl; intros; try lia; [reflexivity | apply nonneg_of_uint63].
Qed.

Lemma nonneg_not_below_zero (x : float) : nonneg x -> (x <? 0) = false.
Proof.
  unfold nonneg. rewrite ltb_spec.
  change (Prim2SF 0) with (S754_zero false).
  destruct (Prim2SF x) as [[]|[]| |[] mx ex]; unfold SFltb; simpl;
    congruence.
Qed.

(** *** NaN absorbs *)

Lemma mul_nan_r (x : float) : x * nan = nan.
Proof.
  apply Prim2SF_nan. rewrite mul_spec.
  change (Prim2SF nan) with S754_nan. destruct (Prim2SF x); reflexivity.
Qed.

Lemma add_nan_l (x : float) : nan + x = nan.
Proof. apply Prim2SF_nan. rewrite add_spec. reflexivity. Qed.

Lemma add_nan_r (x : float) : x + nan = nan.
Proof.
  apply Prim2SF_nan. rewrite add_spec.
  change (Prim2SF nan) with S754_nan. destruct (Prim2SF x); reflexivity.
Qed.

Lemma div_nan_l (x : float) : nan / x = nan.
Proof. apply Prim2SF_nan. rewrite div_spec. reflexivity. Qed.

Lemma div_nan_r (x : float) : x / nan = nan.
Proof.
  apply Prim2SF_nan. rewrite div_spec.
  change (Prim2SF nan) with S754_nan. destruct (Prim2SF x); reflexivity.
Qed.

(** Nothing equals NaN, NaN included. *)
Lemma eqb_nan_r (x : float) : (x =? nan) = false.
Proof.
  rewrite FloatAxioms.eqb_spec. change (Prim2SF nan) with S754_nan.
  destruct (Prim2SF x) as [[]|[]| |[] mx ex]; reflexivity.
Qed.

(** A value not below zero that compares equal to zero is [+0]. *)
Lemma nonneg_zero (x : float) : nonneg x -> (x =? 0) = true -> x = 0.
Proof.
  unfold nonneg. rewrite FloatAxioms.eqb_spec. intros P E.
  apply Prim2SF_inj. change (Prim2SF 0) with (S754_zero false) in *.
  destruct (Prim2SF x) as [[]|[]| |[] mx ex]; unfold SFeqb in *;
    simpl in *; congruence.
Qed.

(** A magnitude over [+0]: NaN for [0] and NaN, infinite otherwise. *)
Lemma abs_div_zero (x : float) : abs x / 0 = nan \/ abs x / 0 = infinity.
Proof.
  assert (H : Prim2SF (abs x / 0) = S754_nan
              \/ Prim2SF (abs x / 0) = S754_infinity false).
  { rewrite div_spec, abs_spec. change (Prim2SF 0) with (S754_zero false).
    destruct (Prim2SF x) as [[]|[]| |[] mx ex]; simpl; auto. }
  destruct H as [H|H]; [left|right]; apply Prim2SF_inj; rewrite H; reflexivity.
Qed.

(** The same, by cases on the numerator. *)
Lemma abs_div_zero_cases (x : float) :
  abs x / 0 = if is_nan x || (x =? 0) then nan else infinity.
Proof.
  destruct (is_nan x) eqn:N.
  - apply is_nan_eq in N. subst x. reflexivity.
  - cbn [orb]. rewrite FloatAxioms.eqb_spec.
    change (Prim2SF 0) with (S754_zero false).
    destruct (Prim2SF x) as [s|s| |s mx ex] eqn:E.
    + replace (SFeqb (S754_zero s) (S754_zero false)) with true
        by (destruct s; reflexivity).
      apply Prim2SF_nan. rewrite div_spec, abs_spec, E. reflexivity.
    + replace (SFeqb (S754_infinity s) (S754_zero false)) with false
        by (destruct s; reflexivity).
      apply Prim2SF_inj. rewrite div_spec, abs_spec, E. reflexivity.
    + apply Prim2SF_nan in E. subst x. discriminate N.
    + replace (SFeqb (S754_finite s mx ex) (S754_zero false)) with false
        by (destruct s; reflexivity).
      apply Prim2SF_inj. rewrite div_spec, abs_spec, E. reflexivity.
Qed.

End FloatFacts.

(** ** Commuting operands *)

Module FloatAlgebra.
Import FloatOrder FloatFacts.

Lemma SFadd_comm (x y : spec_float) : SF64add x y = SF64add y x.
Proof.
  destruct x as [[]|[]| |sx mx ex], y as [[]|[]| |sy my ey];
    try reflexivity.
  unfold SF64add, SFadd.
  rewrite (Z.min_comm ex ey), Z.add_comm. reflexivity.
Qed.

Lemma add_comm (x y : float) : x + y = y + x.
Proof. apply Prim2SF_inj. rewrite !add_spec. apply SFadd_comm. Qed.

Lemma SFabs_round (s : bool) (m e : Z) (l : location) :
  SFabs (binary_round_aux prec emax s m e l)
  = SFabs (binary_round_aux prec emax false m e l).
Proof.
  unfold binary_round_aux.
  destruct (shr_fexp prec emax m e l) as [mrs e'].
  destruct (shr_fexp prec emax _ e' loc_Exact) as [mrs' e''].
  destruct (shr_m mrs'); [| destruct (Z.leb _ _) |]; reflexivity.
Qed.

Lemma SFabs_normalize_opp (m e : Z) :
  SFabs (binary_normalize prec emax (- m) e false)
  = SFabs (binary_normalize prec emax m e false).
Proof.
  destruct m as [|p|p]; simpl; try reflexivity; unfold binary_round;
    destruct (shl_align _ _ _) as [mz ez];
    rewrite (SFabs_round true); reflexivity.
Qed.

Lemma SFabs_sub_comm (x y : spec_float) :
  SFabs (SF64sub x y) = SFabs (SF64sub y x).
Proof.
  destruct x as [[]|[]| |sx mx ex], y as [[]|[]| |sy my ey];
    try reflexivity.
  unfold SF64sub, SFsub.
  rewrite (Z.min_comm ey ex), <- SFabs_normalize_opp.
  f_equal. f_equal. lia.
Qed.

Lemma abs_sub_comm (x y : float) : abs (x - y) = abs (y - x).
Proof.
  apply Prim2SF_inj. rewrite !abs_spec, !sub_spec. apply SFabs_sub_comm.
Qed.

(** A value that is not below zero is NaN or at least zero. *)
Lemma nonneg_cases (x : float) :
  nonneg x -> is_nan x = true \/ (0 <=? x) = true.
Proof.
  unfold nonneg. intros H.
  destruct (Prim2SF x) as [[]|[]| |[] mx ex] eqn:E; try discriminate H.
  - right. rewrite leb_spec, E. reflexivity.
  - right. rewrite leb_spec, E. reflexivity.
  - left. apply is_nan_eq, Prim2SF_nan, E.
  - right. rewrite leb_spec, E. reflexivity.
Qed.

End FloatAlgebra.

(** ** The effect size calculator *)

Section Calculator.
Context {fmt : PyFmt}.
Import FloatOrder FloatFacts.

Lemma std_short (s : Series) : (pd.count s <= 1)%Z -> pd.std s = nan.
Proof.
  intros H. unfold pd.std, pd.var.
  destruct (Z.leb_spec (pd.count s) 1); [reflexivity | lia].
Qed.

Lemma count_nonneg (s : Series) : (0 <= pd.count s)%Z.
Proof. unfold pd.count. lia. Qed.

Lemma weighted_square_short (s : Series) :
  (pd.count s <= 1)%Z ->
  float_of_Z (pd.count s - 1) * square (pd.std s) = nan.
Proof.
  intros H. rewrite (std_short s H).
  change (square nan) with nan. apply mul_nan_r.
Qed.

Lemma weighted_square_nonneg (s : Series) :
  nonneg (float_of_Z (pd.count s - 1) * square (pd.std s)).
Proof.
  destruct (Z_le_gt_dec (pd.count s) 1) as [H|H].
  - rewrite (weighted_square_short s H). apply nonneg_nan.
  - apply nonneg_mul; [apply nonneg_float_of_Z; lia | apply nonneg_square].
Qed.

Lemma pooled_variance_short (a b : Series) :
  (pd.count a <= 1 \/ pd.count b <= 1)%Z -> pooled_variance a b = nan.
Proof.
  unfold pooled_variance. intros [H|H]; rewrite (weighted_square_short _ H).
  - rewrite add_nan_l. apply div_nan_l.
  - rewrite add_nan_r. apply div_nan_l.
Qed.

Lemma pooled_variance_nonneg (a b : Series) : nonneg (pooled_variance a b).
Proof.
  destruct (Z_le_gt_dec (pd.count a) 1) as [Ha|Ha];
    [rewrite pooled_variance_short by auto; apply nonneg_nan|].
  destruct (Z_le_gt_dec (pd.count b) 1) as [Hb|Hb];
    [rewrite pooled_variance_short by auto; apply nonneg_nan|].
  unfold pooled_variance. apply nonneg_div.
  - apply nonneg_add; apply weighted_square_nonneg.
  - apply nonneg_float_of_Z. lia.
Qed.

(** [math.sqrt] never raises inside [_calc_cohens_d]: the calculator
    returns, for all samples, the formatted [d] and the label the chain
    of comparisons gives it. *)
Lemma calc_cohens_d_returns (a b : Series) :
  _calc_cohens_d a b
  = ret (num_to_string (cohens_d a b), effect_size_label (cohens_d a b)).
Proof.
  unfold _calc_cohens_d, math_sqrt.
  change ((float_of_Z (pd.count a - 1) * square (pd.std a)
           + float_of_Z (pd.count b - 1) * square (pd.std b))
          / float_of_Z (pd.count a + pd.count b - 2))
    with (pooled_variance a b).
  rewrite (nonneg_not_below_zero _ (pooled_variance_nonneg a b)).
  reflexivity.
Qed.

Lemma cohens_d_short (a b : Series) :
  (pd.count a <= 1 \/ pd.count b <= 1)%Z -> cohens_d a b = nan.
Proof.
  intros H. unfold cohens_d, pooled_sd.
  rewrite (pooled_variance_short a b H).
  change (sqrt nan) with nan. apply div_nan_r.
Qed.

(** The bands of the chain of comparisons. *)
Lemma label_at_most_001 (d : float) :
  (d <=? 0.01) = true -> effect_size_label d = "Medium".
Proof.
  intros H. unfold effect_size_label.
  rewrite (leb_not_ltb _ _ H). simpl.
  rewrite (leb_trans d 0.01 0.5 H eq_refl). reflexivity.
Qed.

Lemma label_Small (d : float) :
  (d >? 0.01) = true -> (d <=? 0.2) = true -> effect_size_label d = "Small".
Proof. intros H1 H2. unfold effect_size_label. rewrite H1, H2. reflexivity. Qed.

Lemma label_Medium (d : float) :
  (d >? 0.2) = true -> (d <=? 0.5) = true -> effect_size_label d = "Medium".
Proof.
  intros H1 H2. unfold effect_size_label.
  rewrite (ltb_not_leb _ _ H1), andb_false_r, H2. reflexivity.
Qed.

Lemma above (c c' d : float) :
  (c <=? c') = true -> (d >? c') = true -> (d <=? c) = false.
Proof.
  intros H1 H2. apply ltb_not_leb. apply (leb_ltb_trans c c' d H1 H2).
Qed.

Lemma label_Large (d : float) :
  (d >? 0.5) = true -> (d <=? 0.8) = true -> effect_size_label d = "Large".
Proof.
  intros H1 H2. unfold effect_size_label.
  rewrite (above 0.2 0.5 d eq_refl H1), andb_false_r.
  rewrite (ltb_not_leb _ _ H1), H2. reflexivity.
Qed.

Lemma label_Very_large (d : float) :
  (d >? 0.8) = true -> (d <=? 1.2) = true ->
  effect_size_label d = "Very large".
Proof.
  intros H1 H2. unfold effect_size_label.
  rewrite (above 0.2 0.8 d eq_refl H1), andb_false_r.
  rewrite (above 0.5 0.8 d eq_refl H1).
  rewrite (ltb_not_leb _ _ H1), H2. reflexivity.
Qed.

Lemma label_Huge (d : float) :
  (d >? 1.2) = true -> effect_size_label d = "Huge".
Proof.
  intros H1. unfold effect_size_label.
  rewrite (above 0.2 1.2 d eq_refl H1), andb_false_r.
  rewrite (above 0.5 1.2 d eq_refl H1).
  rewrite (above 0.8 1.2 d eq_refl H1).
  rewrite (ltb_not_leb _ _ H1). reflexivity.
Qed.

Lemma label_never_Very_small (d : float) :
  effect_size_label d <> "Very small".
Proof.
  unfold effect_size_label.
  repeat match goal with |- context [if ?c then _ else _] => destruct c end;
    discriminate.
Qed.

(** C1 (defect of the code).  The claim has every [d <= 0.01] labelled
    "Very small".  In the code that label is the initial value of
    [effect_size], and the chain of comparisons that follows always
    overwrites it: a [d] of at most 0.01 fails [d > 0.01], goes on to
    the test [d <= 0.5], and is labelled "Medium". *)
Theorem calc_cohens_d_at_most_001 (a b : Series) :
  (cohens_d a b <=? 0.01) = true ->
  _calc_cohens_d a b = ret (num_to_string (cohens_d a b), "Medium").
Proof.
  intros H. rewrite calc_cohens_d_returns, (label_at_most_001 _ H).
  reflexivity.
Qed.

(** C6 (amended).  When the pooled standard deviation is zero the
    calculator raises nothing: it returns, with the label "Huge" and a
    [d] that is NaN when the difference of the two means is zero (or
    NaN), and plus infinity otherwise. *)
Theorem calc_cohens_d_zero_pooled_sd (a b : Series) :
  (pooled_sd a b =? 0) = true ->
  _calc_cohens_d a b = ret (num_to_string (cohens_d a b), "Huge")
  /\ cohens_d a b
     = (if is_nan (pd.mean a - pd.mean b) || (pd.mean a - pd.mean b =? 0)
        then nan else infinity).
Proof.
  intros H. rewrite calc_cohens_d_returns.
  assert (Z0 : pooled_sd a b = 0).
  { apply nonneg_zero; [|exact H].
    apply nonneg_sqrt, pooled_variance_nonneg. }
  assert (D : cohens_d a b
              = (if is_nan (pd.mean a - pd.mean b)
                    || (pd.mean a - pd.mean b =? 0)
                 then nan else infinity)).
  { unfold cohens_d. rewrite Z0. apply abs_div_zero_cases. }
  split; [|exact D].
  rewrite D.
  destruct (is_nan (pd.mean a - pd.mean b) || (pd.mean a - pd.mean b =? 0));
    reflexivity.
Qed.

(** C7 (amended).  The calculator checks no sample size: when a sample
    has fewer than two values it returns, with a NaN [d] and the label
    "Huge". *)
Theorem calc_cohens_d_short_sample (a b : Series) :
  (pd.count a < 2 \/ pd.count b < 2)%Z ->
  _calc_cohens_d a b = ret (num_to_string NaN, "Huge").
Proof.
  intros H. rewrite calc_cohens_d_returns, cohens_d_short by lia.
  reflexivity.
Qed.

(** C10.  Whenever the computed [d] is NaN the calculator returns
    without raising, and the label is "Huge": every comparison of the
    chain is false on NaN. *)
Theorem calc_cohens_d_nan_is_Huge (a b : Series) :
  is_nan (cohens_d a b) = true ->
  _calc_cohens_d a b = ret (num_to_string NaN, "Huge").
Proof.
  intros H. apply is_nan_eq in H.
  rewrite calc_cohens_d_returns, H. reflexivity.
Qed.

End Calculator.

(** *** The calculator on sample data *)

Lemma calc_cohens_d_at_most_001_witness :
  (cohens_d [1; 2; 3] [1; 2; 3] <=? 0.01) = true
  /\ @_calc_cohens_d Sample.numpy_fmt [1; 2; 3] [1; 2; 3]
     = ret ("0.0", "Medium").
Proof.
  split; [reflexivity|].
  exact (calc_cohens_d_at_most_001 (fmt := Sample.numpy_fmt)
           [1; 2; 3] [1; 2; 3] eq_refl).
Defined.

Lemma calc_cohens_d_zero_pooled_sd_witness :
  (pooled_sd [2; 2] [3; 3] =? 0) = true
  /\ @_calc_cohens_d Sample.numpy_fmt [2; 2] [3; 3] = ret ("inf", "Huge")
  /\ cohens_d [2; 2] [3; 3] = infinity.
Proof.
  split; [reflexivity|].
  exact (calc_cohens_d_zero_pooled_sd (fmt := Sample.numpy_fmt)
           [2; 2] [3; 3] eq_refl).
Defined.

(** Two constant samples of equal value: the pooled standard deviation is
    zero, and no error is signalled. *)
Lemma calc_cohens_d_zero_pooled_sd_no_error :
  (pooled_sd [2; 2] [2; 2] =? 0) = true
  /\ ~ signals_error (@_calc_cohens_d Sample.numpy_fmt [2; 2] [2; 2])
  /\ @_calc_cohens_d Sample.numpy_fmt [2; 2] [2; 2] = ret ("nan", "Huge").
Proof.
  split; [reflexivity|]. split; [|reflexivity].
  intros [e H]. discriminate H.
Qed.

(** Two constant samples of the same value whose means differ: the mean
    of three values is rounded, the deviations are too small for their
    squares, and [d] is plus infinity. *)
Lemma zero_pooled_sd_of_equal_constants :
  let c := 0x1.999999999999ap-604 in
  (pooled_sd [c; c; c] [c; c] =? 0) = true
  /\ (pd.mean [c; c; c] =? pd.mean [c; c]) = false
  /\ @_calc_cohens_d Sample.numpy_fmt [c; c; c] [c; c] = ret ("inf", "Huge").
Proof. repeat split. Qed.

Lemma calc_cohens_d_short_sample_witness :
  (Z.lt (pd.count []) 2 \/ Z.lt (pd.count [1; 2]) 2)
  /\ @_calc_cohens_d Sample.numpy_fmt [] [1; 2] = ret ("nan", "Huge").
Proof.
  assert (H : (Z.lt (pd.count []) 2 \/ Z.lt (pd.count [1; 2]) 2))
    by (left; reflexivity).
  split; [exact H|].
  exact (calc_cohens_d_short_sample (fmt := Sample.numpy_fmt) [] [1; 2] H).
Defined.

(** A sample of one value: nothing is rejected. *)
Lemma calc_cohens_d_short_sample_no_error :
  Z.lt (pd.count [5]) 2
  /\ ~ signals_error (@_calc_cohens_d Sample.numpy_fmt [5] [1; 2; 3])
  /\ @_calc_cohens_d Sample.numpy_fmt [5] [1; 2; 3] = ret ("nan", "Huge").
Proof.
  split; [reflexivity|]. split; [|reflexivity].
  intros [e H]. discriminate H.
Qed.

Lemma calc_cohens_d_nan_is_Huge_witness :
  is_nan (cohens_d [7] [1; 2; 3]) = true
  /\ @_calc_cohens_d Sample.numpy_fmt [7] [1; 2; 3] = ret ("nan", "Huge").
Proof.
  split; [reflexivity|].
  exact (calc_cohens_d_nan_is_Huge (fmt := Sample.numpy_fmt)
           [7] [1; 2; 3] eq_refl).
Defined.

(** ** More on the effect size calculator *)

Section CalculatorMore.
Context {fmt : PyFmt}.
Import FloatOrder FloatFacts FloatAlgebra.

Lemma pooled_variance_comm (a b : Series) :
  pooled_variance a b = pooled_variance b a.
Proof.
  unfold pooled_variance.
  rewrite (add_comm (float_of_Z (pd.count a - 1) * square (pd.std a))).
  rewrite (Z.add_comm (pd.count a)). reflexivity.
Qed.

Lemma cohens_d_comm (a b : Series) : cohens_d a b = cohens_d b a.
Proof.
  unfold cohens_d, pooled_sd.
  rewrite (abs_sub_comm (pd.mean a)), (pooled_variance_comm a b).
  reflexivity.
Qed.

Lemma cohens_d_nonneg (a b : Series) : nonneg (cohens_d a b).
Proof.
  unfold cohens_d. apply nonneg_div; [apply nonneg_abs|].
  apply nonneg_sqrt, pooled_variance_nonneg.
Qed.

(** X1.  The effect size of two samples does not depend on the order in
    which they are given: the value and the label are the same. *)
Theorem calc_cohens_d_symmetric (a b : Series) :
  _calc_cohens_d a b = _calc_cohens_d b a.
Proof. rewrite !calc_cohens_d_returns, (cohens_d_comm a b). reflexivity. Qed.

(** X2.  The calculator returns for all samples, with one of five labels:
    "Very small", the label [effect_size] starts with, is never
    returned. *)
Theorem calc_cohens_d_labels (a b : Series) :
  exists text label,
    _calc_cohens_d a b = ret (text, label)
    /\ In label ["Small"; "Medium"; "Large"; "Very large"; "Huge"]
    /\ label <> "Very small".
Proof.
  exists (num_to_string (cohens_d a b)), (effect_size_label (cohens_d a b)).
  split; [apply calc_cohens_d_returns|].
  split; [|apply label_never_Very_small].
  unfold effect_size_label.
  repeat match goal with |- context [if ?c then _ else _] => destruct c end;
    simpl; tauto.
Qed.

(** X3.  The standardized difference that is formatted and classified is
    never below zero: it is NaN, or at least zero. *)
Theorem calc_cohens_d_not_negative (a b : Series) :
  _calc_cohens_d a b
  = ret (num_to_string (cohens_d a b), effect_size_label (cohens_d a b))
  /\ (is_nan (cohens_d a b) = true \/ (0 <=? cohens_d a b) = true).
Proof.
  split; [apply calc_cohens_d_returns|].
  apply nonneg_cases, cohens_d_nonneg.
Qed.

End CalculatorMore.

(** ** Lists, sorting and the monad *)

Section ListFacts.

Lemma In_unique (x : string) (l : list string) : In x (unique l) <-> In x l.
Proof.
  induction l as [|y l IH]; simpl; [tauto|].
  rewrite filter_In, IH, negb_true_iff, String.eqb_neq.
  destruct (string_dec y x); intuition.
Qed.

Lemma NoDup_unique (l : list string) : NoDup (unique l).
Proof.
  induction l as [|y l IH]; simpl; constructor.
  - rewrite filter_In, String.eqb_refl. intros [_ H]. discriminate H.
  - apply NoDup_filter, IH.
Qed.

Lemma unique_NoDup (l : list string) : NoDup l -> unique l = l.
Proof.
  induction 1 as [|y l N _ IH]; simpl; [reflexivity|].
  rewrite IH. f_equal.
  apply forallb_filter_id, forallb_forall. intros z Hz.
  apply negb_true_iff, String.eqb_neq. intros ->. contradiction.
Qed.

Context {A : Type} (leb : A -> A -> bool).

Lemma insert_perm (x : A) (l : list A) : Permutation (insert leb x l) (x :: l).
Proof.
  induction l as [|y l IH]; simpl; [reflexivity|].
  destruct (leb x y); [reflexivity|].
  rewrite IH. apply perm_swap.
Qed.

Lemma sort_perm (l : list A) : Permutation (sort leb l) l.
Proof.
  induction l as [|x l IH]; simpl; [reflexivity|].
  rewrite insert_perm. constructor. exact IH.
Qed.

Lemma In_sort (x : A) (l : list A) : In x (sort leb l) <-> In x l.
Proof.
  split; apply Permutation_in; [|symmetry]; apply sort_perm.
Qed.

Hypothesis leb_total : forall a b, leb a b = true \/ leb b a = true.

Let le (a b : A) : Prop := leb a b = true.

Lemma insert_HdRel (x y : A) (l : list A) :
  HdRel le y l -> le y x -> HdRel le y (insert leb x l).
Proof.
  intros H Hyx. destruct l as [|z l]; simpl; [constructor; exact Hyx|].
  destruct (leb x z); constructor; [exact Hyx|].
  inversion H; assumption.
Qed.

Lemma insert_Sorted (x : A) (l : list A) :
  Sorted le l -> Sorted le (insert leb x l).
Proof.
  induction 1 as [|y l S IH H]; simpl; [repeat constructor|].
  destruct (leb x y) eqn:E.
  - constructor; [constructor; assumption | constructor; exact E].
  - constructor; [exact IH|].
    apply insert_HdRel; [exact H|].
    destruct (leb_total x y) as [T|T]; [congruence | exact T].
Qed.

Lemma sort_Sorted (l : list A) : Sorted le (sort leb l).
Proof.
  induction l as [|x l IH]; simpl; [constructor | apply insert_Sorted, IH].
Qed.

End ListFacts.

Section MonadFacts.

Lemma bind_ret {A B} (a : A) (k : A -> M B) : bind (ret a) k = k a.
Proof. unfold bind, ret. destruct (k a). reflexivity. Qed.

Lemma bind_emit {B} (ev : event) (k : unit -> M B) :
  bind (emit ev) k = after [ev] (k tt).
Proof. unfold bind, emit, after. destruct (k tt). reflexivity. Qed.

Lemma after_nil {A} (m : M A) : after [] m = m.
Proof. destruct m; reflexivity. Qed.

Lemma bind_when_emit {B} (c : bool) (ev : event) (k : unit -> M B) :
  bind (if c then emit ev else ret tt) k
  = after (if c then [ev] else []) (k tt).
Proof.
  destruct c; [apply bind_emit | rewrite bind_ret, after_nil; reflexivity].
Qed.

Lemma bind_bind {A B C} (m : M A) (f : A -> M B) (g : B -> M C) :
  bind (bind m f) g = bind m (fun x => bind (f x) g).
Proof.
  unfold bind. destruct m as [[a|e] t]; [|reflexivity].
  destruct (f a) as [[b|e] t']; [|reflexivity].
  destruct (g b) as [r t'']. rewrite app_assoc. reflexivity.
Qed.

Lemma after_after {A} (t t' : list event) (m : M A) :
  after t (after t' m) = after (t ++ t') m.
Proof. unfold after. simpl. rewrite app_assoc. reflexivity. Qed.

(** A loop whose body appends, without raising or showing anything. *)
Lemma for_each_append {A X} (l : list A) (g : A -> list X)
      (body : A -> list X -> M (list X)) (s : list X) :
  (forall x s, In x l -> body x s = ret (s ++ g x)) ->
  for_each l body s = ret (s ++ flat_map g l).
Proof.
  revert s. induction l as [|x l IH]; intros s H; simpl.
  - rewrite app_nil_r. reflexivity.
  - rewrite H by (left; reflexivity). rewrite bind_ret.
    rewrite IH by (intros; apply H; right; assumption).
    rewrite app_assoc. reflexivity.
Qed.

Lemma getitem_nth {A} (l : list A) (i : nat) (d : A) :
  (i < len l)%nat -> getitem l i = ret (nth i l d).
Proof.
  intros H. unfold getitem.
  destruct (nth_error l i) eqn:E.
  - rewrite (nth_error_nth _ _ d E). reflexivity.
  - apply nth_error_None in E. unfold len in H. lia.
Qed.

Lemma dict_getitem_map {V} (f : string -> V) (l : list string) (k : string) :
  In k l -> dict_getitem (map (fun x => (x, f x)) l) k = ret (f k).
Proof.
  intros H. unfold dict_getitem.
  induction l as [|x l IH]; simpl; [contradiction|].
  destruct (String.eqb_spec x k) as [->|N]; [reflexivity|].
  apply IH. destruct H; [contradiction | assumption].
Qed.

End MonadFacts.

(** ** Grouping and the size filter *)

Section Grouping.
Variables (demographic measure_label : string).

Lemma NoDup_group_keys (rows : Students) :
  NoDup (group_keys demographic rows).
Proof.
  unfold group_keys.
  apply (Permutation_NoDup (Permutation_sym (sort_perm _ _))).
  apply NoDup_unique.
Qed.

Lemma Sorted_group_keys (rows : Students) :
  Sorted (fun a b => String.leb a b = true) (group_keys demographic rows).
Proof. apply sort_Sorted. apply String.leb_total. Qed.

Lemma In_group_keys (rows : Students) (l : string) :
  In l (group_keys demographic rows)
  <-> exists r, In r rows /\ demographics r demographic = Some l.
Proof.
  unfold group_keys. rewrite In_sort, In_unique, in_flat_map.
  split; intros [r [Hr H]]; exists r; split; auto.
  - destruct (demographics r demographic); simpl in H; [|contradiction].
    destruct H as [->|[]]. reflexivity.
  - rewrite H. left. reflexivity.
Qed.

Lemma map_filter_map {X Y} (mk : X -> Y) (h : Y -> X) (P : Y -> bool)
      (l : list X) :
  (forall x, h (mk x) = x) ->
  map h (filter P (map mk l)) = filter (fun x => P (mk x)) l.
Proof.
  intros H. induction l as [|x l IH]; simpl; [reflexivity|].
  destruct (P (mk x)); simpl; rewrite IH, ?H; reflexivity.
Qed.

(** The size of a group of the rows that have an outcome is the number
    of non-missing outcome values of the label. *)
Lemma group_size (students : Students) (label : string) :
  Z.of_nat (List.length
              (map StudentKey
                   (group demographic
                          (filter (not_null measure_label) students) label)))
  = outcome_count students demographic measure_label label.
Proof.
  unfold outcome_count, pd.count, pd.dropna, group. f_equal.
  rewrite length_map.
  induction students as [|r rows IH]; simpl; [reflexivity|].
  unfold not_null at 1.
  destruct (pd.notna (measures r measure_label)) eqn:N; simpl;
    destruct (has_label demographic label r); simpl;
    rewrite ?N; simpl; rewrite IH; reflexivity.
Qed.

Lemma subgroup_count (students : Students) (label : string) :
  pd.count (subgroup students demographic measure_label label)
  = outcome_count students demographic measure_label label.
Proof.
  unfold outcome_count, subgroup, select, pd.count, pd.dropna, not_null.
  f_equal. f_equal.
  induction students as [|r rows IH]; [reflexivity|].
  cbn [filter map].
  destruct (has_label demographic label r); cbn [andb filter map];
    [|exact IH].
  destruct (pd.notna (measures r measure_label)) eqn:N;
    cbn [filter map]; rewrite ?N, IH; reflexivity.
Qed.

Lemma outcome_count_positive (students : Students) (label : string) :
  (0 < outcome_count students demographic measure_label label)%Z ->
  In label (group_keys demographic
                       (filter (not_null measure_label) students)).
Proof.
  rewrite <- group_size, length_map. unfold group. intros H.
  destruct (filter (has_label demographic label)
                   (filter (not_null measure_label) students))
    as [|r g] eqn:E; [simpl in H; lia|].
  assert (Hr : In r (r :: g)) by (left; reflexivity).
  rewrite <- E in Hr. apply filter_In in Hr. destruct Hr as [Hr L].
  apply In_group_keys. exists r. split; [exact Hr|].
  unfold has_label in L.
  destruct (demographics r demographic) as [l|]; [|discriminate].
  apply String.eqb_eq in L. congruence.
Qed.

(** The labels that pass the size filter of [run_anova]: without
    repetition, and exactly those with more than [MAGIC_NUMBER]
    non-missing outcome values. *)
Lemma anova_labels_filter (students : Students) :
  anova_labels students demographic measure_label
  = filter (fun l => (outcome_count students demographic measure_label l
                      >? MAGIC_NUMBER)%Z)
           (group_keys demographic (filter (not_null measure_label) students)).
Proof.
  unfold anova_labels, groupby_agg.
  rewrite map_filter_map by reflexivity. simpl.
  rewrite unique_NoDup by apply NoDup_filter, NoDup_group_keys.
  apply filter_ext. intros l. rewrite group_size. reflexivity.
Qed.

Lemma t_test_categories_filter (students : Students) :
  t_test_categories students demographic measure_label
  = filter (fun l => (outcome_count students demographic measure_label l
                      >? MAGIC_NUMBER)%Z)
           (group_keys demographic (filter (not_null measure_label) students)).
Proof.
  unfold t_test_categories, groupby_count.
  rewrite map_filter_map by reflexivity. simpl.
  rewrite unique_NoDup by apply NoDup_filter, NoDup_group_keys.
  apply filter_ext. intros l. rewrite group_size. reflexivity.
Qed.

Lemma t_test_categories_anova_labels (students : Students) :
  t_test_categories students demographic measure_label
  = anova_labels students demographic measure_label.
Proof. rewrite t_test_categories_filter, anova_labels_filter. reflexivity. Qed.

Lemma In_anova_labels (students : Students) (l : string) :
  In l (anova_labels students demographic measure_label)
  <-> (MAGIC_NUMBER < outcome_count students demographic measure_label l)%Z.
Proof.
  rewrite anova_labels_filter, filter_In, Z.gtb_ltb, Z.ltb_lt.
  split; [tauto|]. intros H. split; [|exact H].
  apply outcome_count_positive. unfold MAGIC_NUMBER in H. lia.
Qed.

Lemma NoDup_anova_labels (students : Students) :
  NoDup (anova_labels students demographic measure_label).
Proof. apply NoDup_unique. Qed.

End Grouping.

(** ** What [run_anova] shows and returns *)

Section Anova.
Context {scipy : Scipy} {fmt : PyFmt}.
Variables (students : Students) (demographic measure_label : string).

Local Abbreviation labels := (anova_labels students demographic measure_label).
Local Abbreviation data := (anova_data students demographic measure_label).
Local Abbreviation p_value := (anova_p_value students demographic measure_label).

Lemma rows_of_pairs {X} (row : nat -> nat -> X) (l1 l2 : list nat) :
  flat_map (fun i =>
    flat_map (fun j => if (j <=? i)%nat then [] else [row i j]) l2) l1
  = map (fun ij => row (fst ij) (snd ij))
        (flat_map (fun i =>
           flat_map (fun j => if (j <=? i)%nat then [] else [(i, j)]) l2) l1).
Proof.
  induction l1 as [|i l1 IH]; simpl; [reflexivity|].
  rewrite map_app, <- IH. f_equal. clear IH.
  induction l2 as [|j l2 IH2]; simpl; [reflexivity|].
  rewrite map_app, <- IH2. destruct (j <=? i)%nat; reflexivity.
Qed.

Lemma len_included :
  len (filter (fun g => (g_StudentKey g >? MAGIC_NUMBER)%Z)
              (groupby_agg demographic measure_label
                           (filter (not_null measure_label) students)))
  = len labels.
Proof.
  unfold anova_labels, len.
  rewrite unique_NoDup, length_map; [reflexivity|].
  unfold groupby_agg. rewrite map_filter_map by reflexivity.
  apply NoDup_filter, NoDup_group_keys.
Qed.

Lemma posthoc_rows_width :
  forallb (fun r => (List.length r =? 7)%nat)
          (posthoc_rows students demographic measure_label) = true.
Proof.
  apply forallb_forall. intros r H. unfold posthoc_rows in H.
  apply in_map_iff in H. destruct H as [ij [<- _]]. reflexivity.
Qed.

(** The two loops of [run_anova] raise nothing and build [posthoc_rows]. *)
Lemma posthoc_loops :
  for_each (range (len labels)) (fun i rows =>
    for_each (range (len labels)) (fun j rows =>
      if (j <=? i)%nat then ret rows
      else
        let tukey := scipy_tukey_hsd data in
        let stat := num_to_string (statistic tukey i j) in
        let p := num_to_string (pvalue tukey i j) in
        let low := num_to_string (low (confidence_interval tukey) i j) in
        let high := num_to_string (high (confidence_interval tukey) i j) in
        label_i <- getitem labels i ;;
        label_j <- getitem labels j ;;
        sample_i <-
          dict_getitem
            (map (fun label =>
                    (label, subgroup students demographic measure_label label))
                 labels) label_i ;;
        sample_j <-
          dict_getitem
            (map (fun label =>
                    (label, subgroup students demographic measure_label label))
                 labels) label_j ;;
        effect_size <- _calc_cohens_d sample_i sample_j ;;
        ret (rows ++ [[Str label_i; Str label_j; Str stat; Str p;
                       Str low; Str high;
                       Tuple (fst effect_size) (snd effect_size)]]))
      rows) []
  = ret (posthoc_rows students demographic measure_label).
Proof.
  unfold posthoc_rows, posthoc_pairs.
  rewrite <- (rows_of_pairs (posthoc_row students demographic measure_label)).
  rewrite (for_each_append (range (len labels))
             (fun i => flat_map
                (fun j => if (j <=? i)%nat then []
                          else [posthoc_row students demographic measure_label i j])
                (range (len labels)))); [reflexivity|].
  intros i s Hi. apply in_seq in Hi.
  assert (Li : (i < len labels)%nat) by lia. clear Hi.
  apply (for_each_append (range (len labels))
           (fun j => if (j <=? i)%nat then []
                     else [posthoc_row students demographic measure_label i j])).
  intros j s' Hj. apply in_seq in Hj.
  assert (Lj : (j < len labels)%nat) by lia. clear Hj.
  destruct (j <=? i)%nat; [rewrite app_nil_r; reflexivity|].
  cbv zeta.
  rewrite (getitem_nth labels i "") by exact Li. rewrite bind_ret.
  rewrite (getitem_nth labels j "") by exact Lj. rewrite bind_ret.
  rewrite (dict_getitem_map (subgroup students demographic measure_label))
    by (apply nth_In; exact Li).
  rewrite bind_ret.
  rewrite (dict_getitem_map (subgroup students demographic measure_label))
    by (apply nth_In; exact Lj).
  rewrite bind_ret, calc_cohens_d_returns, bind_ret.
  reflexivity.
Qed.

Lemma run_anova_eq :
  run_anova students demographic measure_label
  = if (len labels <? 2)%nat then
      (Ok false, [anova_cannot_run])
    else
      (Ok true,
       anova_exclusion_warning students demographic measure_label
       ++ Call (F_oneway data)
       :: hypothesis demographic measure_label " by "
       :: (if p_value >? 0.05 then [upheld p_value]
           else [rejected p_value;
                 Call (Tukey_hsd data);
                 Display (to_markdown
                            (posthoc_table students demographic
                                           measure_label))])).
Proof.
  unfold run_anova.
  change (fun r : student => pd.notna (measures r measure_label))
    with (not_null measure_label).
  rewrite len_included.
  destruct (len labels <? 2)%nat; [reflexivity|].
  change (unique (map g_label
            (filter (fun g => (g_StudentKey g >? MAGIC_NUMBER)%Z)
               (groupby_agg demographic measure_label
                  (filter (not_null measure_label) students)))))
    with labels.
  change (unique (map g_label
            (filter (fun g => (g_StudentKey g <=? MAGIC_NUMBER)%Z)
               (groupby_agg demographic measure_label
                  (filter (not_null measure_label) students)))))
    with (anova_excluded students demographic measure_label).
  rewrite map_map.
  change (map (fun x => snd (x, select students demographic x
                                  (not_null measure_label) measure_label))
              labels) with data.
  unfold log_warning at 1, display_Markdown. rewrite bind_when_emit.
  unfold f_oneway. rewrite bind_bind, bind_emit, bind_ret.
  unfold anova_p_value.
  destruct (scipy_f_oneway data) as [stat p]. cbv beta iota.
  rewrite FloatFacts.eqb_nan_r, bind_ret. cbv beta iota.
  unfold log_message, display_Markdown. rewrite bind_emit.
  cbn [snd].
  destruct (p >? 0.05).
  - unfold log_info, display_Markdown. rewrite bind_emit. reflexivity.
  - unfold log_error, display_Markdown.
    rewrite !bind_bind, bind_emit.
    unfold tukey_hsd. rewrite !bind_bind, bind_emit, bind_ret.
    change (fun label : string =>
              (label, select students demographic label
                        (not_null measure_label) measure_label))
      with (fun label : string =>
              (label, subgroup students demographic measure_label label)).
    match goal with
    | |- context [for_each ?l ?b ?s] =>
        replace (for_each l b s)
          with (ret (posthoc_rows students demographic measure_label))
          by (symmetry; exact posthoc_loops)
    end.
    rewrite bind_ret.
    unfold new_DataFrame. cbn [List.length].
    rewrite posthoc_rows_width, bind_ret.
    unfold sort_values. cbn [columns index_of String.eqb Ascii.eqb Bool.eqb option_map].
    rewrite bind_ret.
    unfold log_dataframe, log_message, display_Markdown.
    rewrite bind_emit. reflexivity.
Qed.

End Anova.

(** ** What [run_t_test] shows and returns *)

Section T_test.
Context {scipy : Scipy} {fmt : PyFmt}.
Variables (students : Students) (demographic measure_label : string).

Local Abbreviation categories :=
  (t_test_categories students demographic measure_label).
Local Abbreviation sample_0 := (cat_0 students demographic measure_label).
Local Abbreviation sample_1 := (cat_1 students demographic measure_label).
Local Abbreviation p_value :=
  (t_test_p_value students demographic measure_label).

Lemma run_t_test_eq :
  run_t_test students demographic measure_label
  = if (len categories <? 2)%nat then
      (Ok false, [t_test_cannot_run students demographic measure_label])
    else
      (Ok true,
       Call (Ttest_ind sample_0 sample_1 false)
       :: hypothesis demographic measure_label " for "
       :: (if p_value >? 0.05 then [upheld p_value]
           else [rejected p_value;
                 effect_size_warning students demographic measure_label])
       ++ [Display (to_markdown
                      (stats_table students demographic measure_label))]).
Proof.
  unfold run_t_test.
  change (fun r : student => pd.notna (measures r measure_label))
    with (not_null measure_label).
  change (unique (map c_label
            (filter (fun g => (c_StudentKey g >? MAGIC_NUMBER)%Z)
               (groupby_count demographic
                  (filter (not_null measure_label) students)))))
    with categories.
  destruct (Nat.ltb_spec (len categories) 2) as [L|L]; [reflexivity|].
  rewrite (getitem_nth categories 0 "") by lia. rewrite bind_ret.
  rewrite (getitem_nth categories 1 "") by lia. rewrite bind_ret.
  change (select students demographic (nth 0 categories "")
            (not_null measure_label) measure_label) with sample_0.
  change (select students demographic (nth 1 categories "")
            (not_null measure_label) measure_label) with sample_1.
  unfold ttest_ind. rewrite bind_bind, bind_emit, bind_ret.
  unfold t_test_p_value.
  destruct (scipy_ttest_ind sample_0 sample_1 false) as [stat p].
  cbv beta iota.
  unfold log_message, display_Markdown. rewrite bind_emit.
  cbn [snd].
  destruct (p >? 0.05).
  - unfold log_info, display_Markdown. rewrite bind_emit. reflexivity.
  - unfold log_error, log_warning, display_Markdown.
    rewrite !bind_bind, bind_emit.
    rewrite calc_cohens_d_returns, bind_ret, bind_emit. reflexivity.
Qed.

End T_test.

(** ** Counting the rows of the post-hoc table *)

Section Counting.

Lemma count_if_perm {A} (f : A -> bool) (l l' : list A) :
  Permutation l l' -> count_if f l = count_if f l'.
Proof.
  unfold count_if.
  induction 1 as [|x l l' _ IH|x y l|l l' l'' _ IH1 _ IH2]; simpl.
  - reflexivity.
  - destruct (f x); simpl; rewrite IH; reflexivity.
  - destruct (f x), (f y); reflexivity.
  - congruence.
Qed.

Lemma count_if_map {A B} (f : B -> bool) (g : A -> B) (l : list A) :
  count_if f (map g l) = count_if (fun x => f (g x)) l.
Proof.
  unfold count_if. induction l as [|x l IH]; simpl; [reflexivity|].
  destruct (f (g x)); simpl; rewrite IH; reflexivity.
Qed.

Lemma count_if_app {A} (f : A -> bool) (l l' : list A) :
  count_if f (l ++ l') = (count_if f l + count_if f l')%nat.
Proof. unfold count_if. rewrite filter_app, length_app. reflexivity. Qed.

Lemma count_if_ext_in {A} (f g : A -> bool) (l : list A) :
  (forall x, In x l -> f x = g x) -> count_if f l = count_if g l.
Proof. intros H. unfold count_if. rewrite (filter_ext_in f g l H). reflexivity. Qed.

Lemma count_if_or {A} (f g : A -> bool) (l : list A) :
  (forall x, f x = true -> g x = true -> False) ->
  count_if (fun x => f x || g x) l = (count_if f l + count_if g l)%nat.
Proof.
  intros D. unfold count_if. induction l as [|x l IH]; simpl; [reflexivity|].
  specialize (D x).
  destruct (f x), (g x); simpl; rewrite IH; try reflexivity; try lia;
    exfalso; auto.
Qed.

(** In a run of consecutive numbers, a count that is zero off [i0]. *)
Lemma count_if_flat_map_seq {A} (f : A -> bool) (g : nat -> list A)
      (i0 start n : nat) :
  (forall i, i <> i0 -> count_if f (g i) = O) ->
  count_if f (flat_map g (seq start n))
  = if (start <=? i0)%nat && (i0 <? start + n)%nat
    then count_if f (g i0) else O.
Proof.
  intros H. revert start. induction n as [|n IH]; intros start; simpl.
  - destruct (Nat.leb_spec start i0), (Nat.ltb_spec i0 (start + 0)); simpl;
      try reflexivity; lia.
  - rewrite count_if_app, IH.
    destruct (Nat.eq_dec start i0) as [->|N].
    + destruct (Nat.leb_spec i0 i0), (Nat.leb_spec (S i0) i0),
        (Nat.ltb_spec i0 (i0 + S n)); simpl; lia.
    + rewrite (H start N).
      destruct (Nat.leb_spec start i0), (Nat.leb_spec (S start) i0),
        (Nat.ltb_spec i0 (S start + n)), (Nat.ltb_spec i0 (start + S n));
        simpl; lia.
Qed.

Lemma In_posthoc_pairs (n i j : nat) :
  In (i, j) (posthoc_pairs n) <-> (i < j < n)%nat.
Proof.
  unfold posthoc_pairs, range. rewrite in_flat_map. split.
  - intros (i' & Hi & H). apply in_flat_map in H. destruct H as (j' & Hj & H).
    apply in_seq in Hi, Hj.
    destruct (Nat.leb_spec j' i'); simpl in H; [contradiction|].
    destruct H as [H|[]]. inversion H; subst. lia.
  - intros H. exists i. split; [apply in_seq; lia|].
    apply in_flat_map. exists j. split; [apply in_seq; lia|].
    destruct (Nat.leb_spec j i); [lia|]. left. reflexivity.
Qed.

(** Each position [i0 < j0 < n] is visited once by the loops, and no
    other position is visited. *)
Lemma count_posthoc_pairs (n i0 j0 : nat) :
  count_if (fun ij => (fst ij =? i0)%nat && (snd ij =? j0)%nat)
           (posthoc_pairs n)
  = if (i0 <? j0)%nat && (j0 <? n)%nat then 1%nat else O.
Proof.
  unfold posthoc_pairs, range.
  rewrite (count_if_flat_map_seq _ _ i0).
  - rewrite (count_if_flat_map_seq _ _ j0).
    + destruct (Nat.leb_spec 0 i0), (Nat.ltb_spec i0 (0 + n)),
        (Nat.leb_spec 0 j0), (Nat.ltb_spec j0 (0 + n)),
        (Nat.ltb_spec i0 j0), (Nat.ltb_spec j0 n),
        (Nat.leb_spec j0 i0); simpl; try lia;
        unfold count_if; simpl; rewrite ?Nat.eqb_refl; simpl; lia.
    + intros j N. destruct (j <=? i0)%nat; [reflexivity|].
      unfold count_if. simpl.
      destruct (Nat.eqb_spec j j0); [contradiction|].
      rewrite andb_false_r. reflexivity.
  - intros i N. unfold count_if.
    induction (seq 0 n) as [|j l IH]; simpl; [reflexivity|].
    rewrite filter_app, length_app, IH.
    destruct (j <=? i)%nat; simpl; [reflexivity|].
    destruct (Nat.eqb_spec i i0); [contradiction|]. reflexivity.
Qed.

Lemma map_sort {A B} (leb : B -> B -> bool) (f : A -> B) (l : list A) :
  map f (sort (fun x y => leb (f x) (f y)) l) = sort leb (map f l).
Proof.
  induction l as [|x l IH]; simpl; [reflexivity|].
  rewrite <- IH. generalize (sort (fun x y => leb (f x) (f y)) l). intros s.
  induction s as [|y s IHs]; simpl; [reflexivity|].
  destruct (leb (f x) (f y)); simpl; [reflexivity|]. rewrite IHs. reflexivity.
Qed.

Lemma Sorted_impl_in {A} (R R' : A -> A -> Prop) (l : list A) :
  (forall x y, In x l -> In y l -> R x y -> R' x y) ->
  Sorted R l -> Sorted R' l.
Proof.
  intros H S. induction S as [|x l S IH Hd]; constructor.
  - apply IH. intros; apply H; simpl; auto.
  - destruct Hd; constructor. apply H; simpl; auto.
Qed.

Lemma cell_compare_antisym (a b : cell) :
  cell_compare b a = CompOpp (cell_compare a b).
Proof.
  destruct a as [x|x1 x2], b as [y|y1 y2]; simpl; try reflexivity.
  - apply String.compare_antisym.
  - rewrite (String.compare_antisym x1 y1), (String.compare_antisym x2 y2).
    destruct (String.compare y1 x1); simpl; try reflexivity.
    destruct (String.compare y2 x2); reflexivity.
Qed.

Lemma cell_leb_total (a b : cell) : cell_leb a b = true \/ cell_leb b a = true.
Proof.
  unfold cell_leb. rewrite (cell_compare_antisym a b).
  destruct (cell_compare a b); simpl; auto.
Qed.

End Counting.

(** ** The size filter and the two engines *)

Section Engines.
Context {scipy : Scipy} {fmt : PyFmt}.
Variables (students : Students) (demographic measure_label : string).

Local Abbreviation labels :=
  (anova_labels students demographic measure_label).
Local Abbreviation categories :=
  (t_test_categories students demographic measure_label).

(** Two labels pass the size filter of the code exactly when two distinct
    labels of the dataset have more than [MAGIC_NUMBER] outcome values. *)
Lemma two_labels :
  (2 <= len labels)%nat
  <-> at_least_two_eligible students demographic measure_label.
Proof.
  unfold at_least_two_eligible, eligible.
  pose proof (NoDup_anova_labels demographic measure_label students) as N.
  split.
  - intros L. destruct labels as [|a [|b l]] eqn:E; simpl in L; try lia.
    exists a, b. rewrite <- !In_anova_labels, E.
    inversion N; subst. simpl in *. intuition.
  - intros (l1 & l2 & D & H1 & H2).
    rewrite <- In_anova_labels in H1, H2.
    destruct labels as [|a [|b l]]; simpl in *; try lia; try tauto.
    destruct H1 as [<-|[]], H2 as [<-|[]]. contradiction.
Qed.

Lemma nan_not_above (p : float) : is_nan p = true -> (p >? 0.05) = false.
Proof. intros H. apply FloatFacts.is_nan_eq in H. rewrite H. reflexivity. Qed.

(** C2 (defect of the code).  The fallback is tested with
    [p_value == NaN], which is false for every [p_value], NaN included:
    when the one-way ANOVA gives a NaN p-value the engine runs no
    Kruskal-Wallis test, and goes on with the NaN, which it reports as a
    significant difference. *)
Theorem run_anova_nan_no_fallback :
  is_nan (anova_p_value students demographic measure_label) = true ->
  (2 <= len labels)%nat ->
  trace (run_anova students demographic measure_label)
  = anova_exclusion_warning students demographic measure_label
    ++ [ Call (F_oneway (anova_data students demographic measure_label));
         hypothesis demographic measure_label " by ";
         rejected NaN;
         Call (Tukey_hsd (anova_data students demographic measure_label));
         Display (to_markdown
                    (posthoc_table students demographic measure_label)) ]
  /\ forall data, ~ In (Call (Kruskal data))
                       (trace (run_anova students demographic measure_label)).
Proof.
  intros P L. rewrite run_anova_eq.
  destruct (Nat.ltb_spec (len labels) 2) as [L'|_]; [lia|].
  rewrite (nan_not_above _ P). apply FloatFacts.is_nan_eq in P. rewrite P.
  split; [reflexivity|].
  intros data H. unfold trace in H. cbn [snd] in H.
  apply in_app_or in H. destruct H as [H|H].
  - unfold anova_exclusion_warning in H.
    destruct (len _ >? 0)%nat; simpl in H; [destruct H as [H|[]]|destruct H].
    discriminate H.
  - simpl in H. repeat (destruct H as [H|H]; [discriminate H|]). exact H.
Qed.

(** C9.  With fewer than two labels passing the size filter both engines
    return [False] and call no test; with two or more they call their
    test and return [True]. *)
Theorem engines_run_iff_two_eligible :
  (~ at_least_two_eligible students demographic measure_label ->
   result (run_anova students demographic measure_label) = Ok false
   /\ no_test_run (trace (run_anova students demographic measure_label))
   /\ result (run_t_test students demographic measure_label) = Ok false
   /\ no_test_run (trace (run_t_test students demographic measure_label)))
  /\ (at_least_two_eligible students demographic measure_label ->
      result (run_anova students demographic measure_label) = Ok true
      /\ In (Call (F_oneway (anova_data students demographic measure_label)))
            (trace (run_anova students demographic measure_label))
      /\ result (run_t_test students demographic measure_label) = Ok true
      /\ In (Call (Ttest_ind (cat_0 students demographic measure_label)
                             (cat_1 students demographic measure_label)
                             false))
            (trace (run_t_test students demographic measure_label))).
Proof.
  rewrite <- two_labels, run_anova_eq, run_t_test_eq.
  rewrite t_test_categories_anova_labels.
  destruct (Nat.ltb_spec (len labels) 2) as [L|L]; split; intros H;
    try (exfalso; lia).
  - repeat split; try reflexivity; intros c [E|[]]; discriminate E.
  - repeat split; try reflexivity.
    + unfold trace. cbn [snd]. apply in_or_app. right. left. reflexivity.
    + left. reflexivity.
Qed.


(** C3 (defect of the code).  Whenever the two-group engine runs its test
    it shows the table of descriptive statistics, whatever the verdict;
    count, mean and standard deviation stand under their columns, but the
    row is built with the maximum before the minimum: the column "Min"
    holds the maximum and the column "Max" the minimum. *)
Theorem run_t_test_stats_table :
  (2 <= len categories)%nat ->
  In (Display (to_markdown (stats_table students demographic measure_label)))
     (trace (run_t_test students demographic measure_label))
  /\ forall row, (row < 2)%nat ->
       cell_under (stats_table students demographic measure_label) "Label" row
       = Some (Str (nth row categories ""))
       /\ cell_under (stats_table students demographic measure_label)
                     "Count" row
          = Some (Str (num_to_string
                         (float_of_Z
                            (pd.count
                               (subgroup students demographic measure_label
                                         (nth row categories ""))))))
       /\ cell_under (stats_table students demographic measure_label)
                     "Mean" row
          = Some (Str (num_to_string
                         (pd.mean
                            (subgroup students demographic measure_label
                                      (nth row categories "")))))
       /\ cell_under (stats_table students demographic measure_label)
                     "StD" row
          = Some (Str (num_to_string
                         (pd.std
                            (subgroup students demographic measure_label
                                      (nth row categories "")))))
       /\ cell_under (stats_table students demographic measure_label)
                     "Min" row
          = Some (Str (num_to_string
                         (pd.max
                            (subgroup students demographic measure_label
                                      (nth row categories "")))))
       /\ cell_under (stats_table students demographic measure_label)
                     "Max" row
          = Some (Str (num_to_string
                         (pd.min
                            (subgroup students demographic measure_label
                                      (nth row categories ""))))).
Proof.
  intros L. split.
  - rewrite run_t_test_eq.
    destruct (Nat.ltb_spec (len categories) 2) as [L'|_]; [lia|].
    unfold trace. cbn [snd]. right. right. apply in_or_app. right.
    left. reflexivity.
  - intros [|[|row]] R; try lia; repeat split; reflexivity.
Qed.

End Engines.

(** ** The post-hoc table and the labels that are tested *)

Section Posthoc.
Context {scipy : Scipy} {fmt : PyFmt}.
Variables (students : Students) (demographic measure_label : string).

Local Abbreviation labels :=
  (anova_labels students demographic measure_label).
Local Abbreviation categories :=
  (t_test_categories students demographic measure_label).
Local Abbreviation row :=
  (fun ij : nat * nat =>
     posthoc_row students demographic measure_label (fst ij) (snd ij)).

Lemma nth_label_eqb (i i0 : nat) :
  (i < len labels)%nat -> (i0 < len labels)%nat ->
  String.eqb (nth i labels "") (nth i0 labels "") = (i =? i0)%nat.
Proof.
  intros L L0.
  pose proof (NoDup_anova_labels demographic measure_label students) as N.
  rewrite (NoDup_nth labels "") in N.
  destruct (Nat.eqb_spec i i0) as [->|D]; [apply String.eqb_refl|].
  apply String.eqb_neq. intros E. apply D, N; assumption.
Qed.

Lemma posthoc_table_perm :
  Permutation (data (posthoc_table students demographic measure_label))
              (map row (posthoc_pairs (len labels))).
Proof. apply sort_perm. Qed.

Lemma posthoc_table_order :
  data (posthoc_table students demographic measure_label)
  = map row (posthoc_order students demographic measure_label).
Proof.
  unfold posthoc_order.
  rewrite (map_sort (fun r1 r2 => cell_leb (cell_at 3 r1) (cell_at 3 r2)) row).
  reflexivity.
Qed.

Lemma In_posthoc_table (r : list cell) :
  In r (data (posthoc_table students demographic measure_label)) ->
  exists i j, (i < j < len labels)%nat
              /\ r = posthoc_row students demographic measure_label i j.
Proof.
  intros H. apply (Permutation_in _ posthoc_table_perm) in H.
  apply in_map_iff in H. destruct H as ([i j] & <- & H).
  apply In_posthoc_pairs in H. exists i, j. split; [exact H | reflexivity].
Qed.

(** C5 (amended).  When the omnibus test is significant the engine shows
    the post-hoc table; the table has exactly one row for every unordered
    pair of distinct labels that pass the size filter, every row is about
    two distinct such labels, and the rows are in ascending order of the
    text of their "p Value" cell (the p-value rounded to three decimals
    and formatted), compared as strings. *)
Theorem posthoc_table_rows :
  (2 <= len labels)%nat ->
  (anova_p_value students demographic measure_label >? 0.05) = false ->
  In (Display (to_markdown (posthoc_table students demographic measure_label)))
     (trace (run_anova students demographic measure_label))
  /\ (forall a b,
        eligible students demographic measure_label a ->
        eligible students demographic measure_label b ->
        a <> b ->
        count_if (is_pair a b)
                 (data (posthoc_table students demographic measure_label))
        = 1%nat)
  /\ (forall r,
        In r (data (posthoc_table students demographic measure_label)) ->
        eligible students demographic measure_label (text_at 0 r)
        /\ eligible students demographic measure_label (text_at 1 r)
        /\ text_at 0 r <> text_at 1 r)
  /\ Sorted (fun r1 r2 => String.leb (text_at 3 r1) (text_at 3 r2) = true)
            (data (posthoc_table students demographic measure_label)).
Proof.
  intros L P. repeat split.
  - rewrite run_anova_eq.
    destruct (Nat.ltb_spec (len labels) 2) as [L'|_]; [lia|].
    rewrite P. unfold trace. cbn [snd]. apply in_or_app. right.
    right. right. right. right. left. reflexivity.
  - intros a b Ha Hb D.
    apply In_anova_labels in Ha, Hb.
    destruct (In_nth _ _ "" Ha) as (ia & La & Ea).
    destruct (In_nth _ _ "" Hb) as (ib & Lb & Eb).
    assert (Dab : ia <> ib) by congruence.
    rewrite (count_if_perm _ _ _ posthoc_table_perm), count_if_map.
    rewrite (count_if_ext_in _
               (fun ij => ((fst ij =? ia)%nat && (snd ij =? ib)%nat)
                          || ((fst ij =? ib)%nat && (snd ij =? ia)%nat))).
    + rewrite count_if_or, !count_posthoc_pairs.
      * unfold len in *.
        destruct (Nat.ltb_spec ia ib), (Nat.ltb_spec ib ia),
          (Nat.ltb_spec ia (List.length labels)),
          (Nat.ltb_spec ib (List.length labels)); simpl; lia.
      * intros [i j]. simpl. rewrite !andb_true_iff, !Nat.eqb_eq. lia.
    + intros [i j] H. apply In_posthoc_pairs in H. unfold is_pair.
      cbn [fst snd].
      change (text_at 0 (posthoc_row students demographic measure_label i j))
        with (nth i labels "").
      change (text_at 1 (posthoc_row students demographic measure_label i j))
        with (nth j labels "").
      rewrite <- Ea, <- Eb.
      rewrite !nth_label_eqb by (unfold len in *; lia). reflexivity.
  - destruct (In_posthoc_table r H) as (i & j & B & ->).
    apply In_anova_labels, nth_In. unfold len in B. lia.
  - destruct (In_posthoc_table r H) as (i & j & B & ->).
    apply In_anova_labels, nth_In. unfold len in B. lia.
  - destruct (In_posthoc_table r H) as (i & j & B & ->).
    change (nth i labels "" <> nth j labels "").
    rewrite <- String.eqb_neq, nth_label_eqb by lia.
    apply Nat.eqb_neq. lia.
  - apply (Sorted_impl_in
             (fun r1 r2 => cell_leb (cell_at 3 r1) (cell_at 3 r2) = true)).
    + intros r1 r2 H1 H2.
      destruct (In_posthoc_table r1 H1) as (i1 & j1 & _ & ->).
      destruct (In_posthoc_table r2 H2) as (i2 & j2 & _ & ->).
      intros H. exact H.
    + apply sort_Sorted. intros; apply cell_leb_total.
Qed.

Lemma anova_calls (c : libcall) :
  In (Call c) (trace (run_anova students demographic measure_label)) ->
  (2 <= len labels)%nat
  /\ samples_of c = anova_data students demographic measure_label.
Proof.
  rewrite run_anova_eq.
  destruct (Nat.ltb_spec (len labels) 2) as [L|L]; unfold trace; cbn [snd].
  - intros [H|[]]. discriminate H.
  - intros H. split; [exact L|]. apply in_app_or in H. destruct H as [H|H].
    + unfold anova_exclusion_warning in H.
      destruct (len _ >? 0)%nat; simpl in H; [destruct H as [H|[]]|destruct H].
      discriminate H.
    + destruct (anova_p_value students demographic measure_label >? 0.05);
        simpl in H;
        repeat (destruct H as [H|H];
                [first [discriminate H | inversion H; reflexivity]|]);
        destruct H.
Qed.

Lemma t_test_calls (c : libcall) :
  In (Call c) (trace (run_t_test students demographic measure_label)) ->
  (2 <= len categories)%nat
  /\ samples_of c = [cat_0 students demographic measure_label;
                     cat_1 students demographic measure_label].
Proof.
  rewrite run_t_test_eq.
  destruct (Nat.ltb_spec (len categories) 2) as [L|L]; unfold trace; cbn [snd].
  - intros [H|[]]. discriminate H.
  - intros H. split; [exact L|].
    destruct (t_test_p_value students demographic measure_label >? 0.05);
      simpl in H;
      repeat (destruct H as [H|H];
              [first [discriminate H | inversion H; reflexivity]|]);
      destruct H.
Qed.

Lemma same_sample_same_count (l l' : string) :
  subgroup students demographic measure_label l
  = subgroup students demographic measure_label l' ->
  outcome_count students demographic measure_label l
  = outcome_count students demographic measure_label l'.
Proof. intros H. rewrite <- !subgroup_count, H. reflexivity. Qed.

(** C8 (amended).  In both engines a label takes part in a test only if
    it has more than 30 non-missing outcome values, so that a label with
    exactly 30 never does.  When two labels or more pass this filter, the
    multi-group engine tests every one of them, and the two-group engine
    tests two samples: those of the first two such labels, in the sorted
    order of the labels. *)
Theorem participation_by_size :
  (forall l, participates students demographic measure_label
               (run_anova students demographic measure_label) l ->
             eligible students demographic measure_label l)
  /\ (forall l, participates students demographic measure_label
                  (run_t_test students demographic measure_label) l ->
                eligible students demographic measure_label l)
  /\ (forall l, outcome_count students demographic measure_label l = 30%Z ->
                ~ participates students demographic measure_label
                    (run_anova students demographic measure_label) l
                /\ ~ participates students demographic measure_label
                       (run_t_test students demographic measure_label) l)
  /\ (at_least_two_eligible students demographic measure_label ->
      (forall l, eligible students demographic measure_label l ->
                 participates students demographic measure_label
                   (run_anova students demographic measure_label) l)
      /\ (forall s, tested (trace (run_t_test students demographic
                                              measure_label)) s
                    <-> s = subgroup students demographic measure_label
                              (nth 0 categories "")
                        \/ s = subgroup students demographic measure_label
                                 (nth 1 categories ""))
      /\ categories
         = filter (fun l => (outcome_count students demographic
                                           measure_label l >? 30)%Z)
                  (group_keys demographic
                              (filter (not_null measure_label) students))).
Proof.
  assert (A : forall l, participates students demographic measure_label
                          (run_anova students demographic measure_label) l ->
                        eligible students demographic measure_label l).
  { intros l (c & Hc & Hs). apply anova_calls in Hc. destruct Hc as [_ E].
    rewrite E in Hs. apply in_map_iff in Hs. destruct Hs as (l' & Hs & Hl).
    unfold eligible. rewrite <- (same_sample_same_count _ _ Hs).
    apply In_anova_labels, Hl. }
  assert (T : forall l, participates students demographic measure_label
                          (run_t_test students demographic measure_label) l ->
                        eligible students demographic measure_label l).
  { intros l (c & Hc & Hs). apply t_test_calls in Hc. destruct Hc as [L E].
    rewrite E in Hs. unfold eligible.
    destruct Hs as [Hs|[Hs|[]]];
      rewrite <- (same_sample_same_count _ _ Hs);
      apply In_anova_labels; rewrite <- t_test_categories_anova_labels;
      apply nth_In; unfold len in L; lia. }
  split; [exact A|]. split; [exact T|]. split.
  - intros l H. unfold eligible, MAGIC_NUMBER in A, T.
    split; intros P; [apply A in P | apply T in P]; lia.
  - intros H. apply two_labels in H. split; [|split].
    + intros l E. apply In_anova_labels in E.
      exists (F_oneway (anova_data students demographic measure_label)).
      split; [|apply in_map; exact E].
      rewrite run_anova_eq.
      destruct (Nat.ltb_spec (len labels) 2) as [L'|_]; [lia|].
      unfold trace. cbn [snd]. apply in_or_app. right. left. reflexivity.
    + rewrite <- t_test_categories_anova_labels in H.
      intros s. split.
      * intros (c & Hc & Hs). apply t_test_calls in Hc.
        destruct Hc as [_ E]. rewrite E in Hs.
        destruct Hs as [<-|[<-|[]]]; auto.
      * intros Hs.
        exists (Ttest_ind (cat_0 students demographic measure_label)
                          (cat_1 students demographic measure_label) false).
        split.
        -- rewrite run_t_test_eq.
           destruct (Nat.ltb_spec (len categories) 2) as [L'|_]; [lia|].
           left. reflexivity.
        -- destruct Hs as [E | E]; rewrite E; simpl; auto.
    + apply t_test_categories_filter.
Qed.

End Posthoc.

(** ** More on the two engines *)

Section EnginesMore.
Context {scipy : Scipy} {fmt : PyFmt}.
Variables (students : Students) (demographic measure_label : string).

Local Abbreviation labels :=
  (anova_labels students demographic measure_label).
Local Abbreviation categories :=
  (t_test_categories students demographic measure_label).
Local Abbreviation count_of :=
  (outcome_count students demographic measure_label).

Lemma subgroup_notna (label : string) :
  Forall (fun x => is_nan x = false)
         (subgroup students demographic measure_label label).
Proof.
  unfold subgroup, select. apply Forall_forall. intros x H.
  apply in_map_iff in H. destruct H as (r & <- & H).
  apply filter_In in H. destruct H as [_ H].
  apply andb_true_iff in H. destruct H as [_ H].
  unfold not_null, pd.notna in H. apply negb_true_iff in H. exact H.
Qed.

Lemma subgroup_length (label : string) :
  Z.of_nat (List.length (subgroup students demographic measure_label label))
  = count_of label.
Proof.
  rewrite <- subgroup_count. unfold pd.count, pd.dropna. f_equal. f_equal.
  symmetry. apply forallb_filter_id, forallb_forall. intros x H.
  pose proof (subgroup_notna label) as N. rewrite Forall_forall in N.
  unfold pd.notna. rewrite (N x H). reflexivity.
Qed.

Lemma tested_is_subgroup (s : Series) :
  tested (trace (run_anova students demographic measure_label)) s
  \/ tested (trace (run_t_test students demographic measure_label)) s ->
  exists l, In l labels
            /\ s = subgroup students demographic measure_label l.
Proof.
  intros [(c & Hc & Hs)|(c & Hc & Hs)].
  - apply anova_calls in Hc. destruct Hc as [_ E]. rewrite E in Hs.
    apply in_map_iff in Hs. destruct Hs as (l & <- & Hl). eauto.
  - apply t_test_calls in Hc. destruct Hc as [L E]. rewrite E in Hs.
    rewrite <- t_test_categories_anova_labels.
    destruct Hs as [<-|[<-|[]]]; eexists; (split; [|reflexivity]);
      apply nth_In; unfold len in L; lia.
Qed.

(** X4.  Every sample that either engine gives to a test of scipy has
    more than 30 values, and none of them is missing (NaN). *)
Theorem tested_samples_clean_and_large (s : Series) :
  tested (trace (run_anova students demographic measure_label)) s
  \/ tested (trace (run_t_test students demographic measure_label)) s ->
  Forall (fun x => is_nan x = false) s
  /\ (30 < Z.of_nat (List.length s))%Z.
Proof.
  intros H. destruct (tested_is_subgroup s H) as (l & Hl & ->).
  split; [apply subgroup_notna|].
  rewrite subgroup_length. apply In_anova_labels in Hl. exact Hl.
Qed.

(** X5.  The multi-group engine runs Tukey's test exactly when at least
    two labels pass the size filter and the p-value of the omnibus test
    is not above 0.05; in every other run there is no post-hoc step. *)
Theorem tukey_only_on_rejection :
  (exists data, In (Call (Tukey_hsd data))
                   (trace (run_anova students demographic measure_label)))
  <-> at_least_two_eligible students demographic measure_label
      /\ (anova_p_value students demographic measure_label >? 0.05) = false.
Proof.
  rewrite <- two_labels, run_anova_eq.
  destruct (Nat.ltb_spec (len labels) 2) as [L|L]; unfold trace; cbn [snd].
  - split; [|intros [H _]; lia].
    intros (d & [H|[]]). discriminate H.
  - split.
    + intros (d & H). split; [exact L|].
      apply in_app_or in H. destruct H as [H|H].
      * unfold anova_exclusion_warning in H.
        destruct (len _ >? 0)%nat; simpl in H;
          [destruct H as [H|[]]; discriminate H | destruct H].
      * destruct (anova_p_value students demographic measure_label >? 0.05);
          [|reflexivity].
        simpl in H.
        repeat (destruct H as [H|H]; [discriminate H|]). destruct H.
    + intros [_ P]. rewrite P.
      exists (anova_data students demographic measure_label).
      apply in_or_app. right. right. right. right. left. reflexivity.
Qed.

(** X6.  When the two-group engine runs its test and the p-value is above
    0.05, it shows the hypothesis, that it is upheld, and the table of
    descriptive statistics, and nothing else: no effect size. *)
Theorem run_t_test_upheld :
  (2 <= len categories)%nat ->
  (t_test_p_value students demographic measure_label >? 0.05) = true ->
  run_t_test students demographic measure_label
  = (Ok true,
     [ Call (Ttest_ind (cat_0 students demographic measure_label)
                       (cat_1 students demographic measure_label) false);
       hypothesis demographic measure_label " for ";
       upheld (t_test_p_value students demographic measure_label);
       Display (to_markdown
                  (stats_table students demographic measure_label)) ]).
Proof.
  intros L P. rewrite run_t_test_eq.
  destruct (Nat.ltb_spec (len categories) 2) as [L'|_]; [lia|].
  rewrite P. reflexivity.
Qed.






Lemma length_inner_pairs (i n : nat) :
  List.length
    (flat_map (fun j => if (j <=? i)%nat then [] else [(i, j)]) (seq 0 n))
  = (n - S i)%nat.
Proof.
  induction n as [|n IH]; [reflexivity|].
  rewrite seq_S, flat_map_app, length_app, IH. simpl.
  destruct (Nat.leb_spec n i); simpl; lia.
Qed.

Lemma length_posthoc_pairs (n : nat) :
  (2 * List.length (posthoc_pairs n) = n * (n - 1))%nat.
Proof.
  unfold posthoc_pairs, range.
  assert (H : forall m, (m <= n)%nat ->
             (2 * List.length
                    (flat_map
                       (fun i => flat_map
                          (fun j => if (j <=? i)%nat then [] else [(i, j)])
                          (seq 0 n))
                       (seq 0 m))
              + m * (m + 1) = 2 * m * n)%nat).
  { induction m as [|m IH]; intros Hm; [reflexivity|].
    rewrite seq_S, flat_map_app, length_app.
    simpl flat_map. rewrite app_nil_r, length_inner_pairs.
    specialize (IH ltac:(lia)). nia. }
  specialize (H n (le_n n)). nia.
Qed.

(** X8.  In a run where the omnibus test is significant, the last two
    steps of the multi-group engine are Tukey's test and the post-hoc
    table, and the table shown has [n (n - 1) / 2] rows for the [n]
    labels that pass the size filter, each counted once: three rows for
    three labels, one for two. *)
Theorem posthoc_table_size :
  (2 <= len labels)%nat ->
  (anova_p_value students demographic measure_label >? 0.05) = false ->
  (exists before,
     run_anova students demographic measure_label
     = (Ok true,
        before
        ++ [ Call (Tukey_hsd (anova_data students demographic measure_label));
             Display (to_markdown
                        (posthoc_table students demographic
                                       measure_label)) ]))
  /\ (2 * List.length
            (data (posthoc_table students demographic measure_label))
      = len labels * (len labels - 1))%nat
  /\ (1 <= List.length
             (data (posthoc_table students demographic measure_label)))%nat
  /\ NoDup labels
  /\ (forall l, In l labels
                <-> eligible students demographic measure_label l).
Proof.
  intros L P.
  assert (S : (2 * List.length
                     (data (posthoc_table students demographic measure_label))
               = len labels * (len labels - 1))%nat).
  { rewrite (Permutation_length (posthoc_table_perm students demographic
                                                    measure_label)).
    rewrite length_map. apply length_posthoc_pairs. }
  split; [|split; [exact S|split; [nia|split]]].
  - rewrite run_anova_eq.
    destruct (Nat.ltb_spec (len labels) 2) as [L'|_]; [lia|].
    rewrite P.
    exists (anova_exclusion_warning students demographic measure_label
            ++ [ Call (F_oneway
                         (anova_data students demographic measure_label));
                 hypothesis demographic measure_label " by ";
                 rejected (anova_p_value students demographic
                                         measure_label) ]).
    rewrite <- app_assoc. reflexivity.
  - apply NoDup_anova_labels.
  - intros l. apply In_anova_labels.
Qed.

End EnginesMore.

(** ** The notebook: box plots and the whole analysis *)

Section NotebookFacts.
Context {scipy : Scipy} {fmt : PyFmt} {db : Database}.

Lemma nbind_done {A B} (a : A) (t : list nb_event) (k : A -> N B) :
  nbind (Done a, t) k = (fst (k a), t ++ snd (k a)).
Proof. unfold nbind. destruct (k a). reflexivity. Qed.








Lemma run_anova_result (students : Students)
      (demographic measure_label : string) :
  result (run_anova students demographic measure_label)
  = Ok (negb (len (anova_labels students demographic measure_label) <? 2)%nat).
Proof.
  rewrite run_anova_eq.
  destruct (len _ <? 2)%nat; reflexivity.
Qed.

Lemma run_t_test_result (students : Students)
      (demographic measure_label : string) :
  result (run_t_test students demographic measure_label)
  = Ok (negb (len (anova_labels students demographic measure_label) <? 2)%nat).
Proof.
  rewrite run_t_test_eq, t_test_categories_anova_labels.
  destruct (len _ <? 2)%nat; reflexivity.
Qed.

Lemma exec_anova_eq (students : Students)
      (demographic measure_label title : string) :
  _exec_anova students demographic measure_label title
  = (Done tt,
     exec_trace (trace (run_anova students demographic measure_label))
                students demographic measure_label title).
Proof.
  unfold _exec_anova, exec_trace, lift, log_message, display_Markdown, emit,
    nemit, create_box_plots.
  cbn [fst snd map]. rewrite !nbind_done.
  pose proof (run_anova_result students demographic measure_label) as R.
  unfold result in R. unfold trace. rewrite R.
  rewrite nbind_done.
  destruct (len _ <? 2)%nat; simpl; rewrite ?app_nil_r; reflexivity.
Qed.

Lemma exec_t_test_eq (students : Students)
      (demographic measure_label title : string) :
  _exec_t_test students demographic measure_label title
  = (Done tt,
     exec_trace (trace (run_t_test students demographic measure_label))
                students demographic measure_label title).
Proof.
  unfold _exec_t_test, exec_trace, lift, log_message, display_Markdown, emit,
    nemit, create_box_plots.
  cbn [fst snd map]. rewrite !nbind_done.
  pose proof (run_t_test_result students demographic measure_label) as R.
  unfold result in R. unfold trace. rewrite R.
  rewrite nbind_done.
  destruct (len _ <? 2)%nat; simpl; rewrite ?app_nil_r; reflexivity.
Qed.

End NotebookFacts.

(** ** The whole analysis *)

Section Analysis.
Context {scipy : Scipy} {fmt : PyFmt} {db : Database}.

Lemma detailed_eq (students : Students) (measure measure_label : string) :
  _run_detailed_analysis students measure measure_label
  = (Done tt, detailed_trace students measure measure_label).
Proof.
  unfold _run_detailed_analysis, detailed_trace, analysis_plan.
  rewrite !exec_anova_eq, !exec_t_test_eq, !nbind_done.
  cbn [fst snd flat_map engine_trace]. rewrite app_nil_r. reflexivity.
Qed.

Lemma big_picture_eq (students : Students) (measure measure_label : string) :
  _run_big_picture students measure measure_label
  = (Done tt, big_picture_trace measure measure_label).
Proof. reflexivity. Qed.

(** What [run_analysis] returns and leaves in the trace, case by case. *)
Lemma run_analysis_eq (adapter : Adapter) (ed_org_level measure : string) :
  run_analysis adapter ed_org_level measure
  = (Done tt,
     Chart_style
     :: Read_sql (query_of ed_org_level)
     :: match pd_read_sql (query_of ed_org_level) adapter with
        | inr text => load_failure text
        | inl students =>
            match measure_label_of measure with
            | None => [invalid_measure]
            | Some measure_label =>
                analysis_heading ed_org_level measure
                :: big_picture_trace measure measure_label
                ++ detailed_trace students measure measure_label
            end
        end).
Proof.
  unfold run_analysis, query_of, measure_label_of, _prepare_for_charts,
    _get_school_students, _get_lea_students.
  destruct (String.eqb ed_org_level Constants.SCHOOL);
    (match goal with
     | |- context [pd_read_sql ?q adapter] =>
         destruct (pd_read_sql q adapter) as [students|text]
     end; [|reflexivity]);
    destruct (String.eqb measure Constants.ATTENDANCE);
    [| destruct (String.eqb measure Constants.BEHAVIOR);
       [| destruct (String.eqb measure Constants.COURSE_PERFORMANCE);
          [| reflexivity ] ] | |
       destruct (String.eqb measure Constants.BEHAVIOR);
       [| destruct (String.eqb measure Constants.COURSE_PERFORMANCE);
          [| reflexivity ] ] ];
    cbn [nemit nret nbind try_except fst snd app lift log_message
         display_Markdown emit map];
    rewrite big_picture_eq, detailed_eq; reflexivity.
Qed.

Lemma anova_call_kinds (students : Students)
      (demographic measure_label : string) (c : libcall) :
  In (Call c) (trace (run_anova students demographic measure_label)) ->
  c = F_oneway (anova_data students demographic measure_label)
  \/ c = Tukey_hsd (anova_data students demographic measure_label).
Proof.
  rewrite run_anova_eq.
  destruct (len _ <? 2)%nat; unfold trace; cbn [snd].
  - intros [H|[]]. discriminate H.
  - intros H. apply in_app_or in H. destruct H as [H|H].
    + unfold anova_exclusion_warning in H.
      destruct (len _ >? 0)%nat; simpl in H; [destruct H as [H|[]]|destruct H].
      discriminate H.
    + destruct (anova_p_value students demographic measure_label >? 0.05);
        simpl in H;
        repeat (destruct H as [H|H];
                [first [discriminate H | inversion H; auto]|]);
        destruct H.
Qed.

Lemma t_test_call_kind (students : Students)
      (demographic measure_label : string) (c : libcall) :
  In (Call c) (trace (run_t_test students demographic measure_label)) ->
  c = Ttest_ind (cat_0 students demographic measure_label)
                (cat_1 students demographic measure_label) false.
Proof.
  rewrite run_t_test_eq.
  destruct (len _ <? 2)%nat; unfold trace; cbn [snd].
  - intros [H|[]]. discriminate H.
  - intros H.
    destruct (t_test_p_value students demographic measure_label >? 0.05);
      simpl in H;
      repeat (destruct H as [H|H];
              [first [discriminate H | inversion H; reflexivity]|]);
      destruct H.
Qed.

(** Every call of an engine is one of the three tests other than
    Kruskal-Wallis, on samples of more than 30 values without a missing
    one. *)
Lemma engine_calls_clean (kind : engine_kind) (students : Students)
      (demographic measure_label : string) (c : libcall) :
  In (Call c) (engine_trace kind students demographic measure_label) ->
  (forall data, c <> Kruskal data)
  /\ Forall (fun s => Forall (fun x => is_nan x = false) s
                      /\ (30 < Z.of_nat (List.length s))%Z)
            (samples_of c).
Proof.
  intros H. split.
  - destruct kind; simpl in H.
    + apply anova_call_kinds in H. destruct H as [->| ->]; discriminate.
    + apply t_test_call_kind in H. subst. discriminate.
  - apply Forall_forall. intros s Hs.
    assert (T : tested (trace (run_anova students demographic measure_label)) s
                \/ tested (trace (run_t_test students demographic
                                              measure_label)) s).
    { destruct kind; [left | right]; exists c; split; assumption. }
    destruct (tested_is_subgroup students demographic measure_label s T)
      as (l & Hl & ->).
    split; [apply subgroup_notna|].
    rewrite subgroup_length. apply In_anova_labels in Hl. exact Hl.
Qed.

Lemma calls_of_exec_trace (engine : list event) (students : Students)
      (demographic measure_label title : string) (c : libcall) :
  In c (calls_of (exec_trace engine students demographic measure_label title))
  <-> In (Call c) engine.
Proof.
  unfold calls_of, exec_trace. cbn [flat_map app].
  rewrite flat_map_app, in_app_iff. split.
  - intros [H|H].
    + apply in_flat_map in H. destruct H as (ev & Hev & H).
      apply in_map_iff in Hev. destruct Hev as (e & <- & He).
      destruct e as [|c']; simpl in H; [destruct H|].
      destruct H as [<-|[]]. exact He.
    + destruct (len _ <? 2)%nat; simpl in H; destruct H.
  - intros H. left. apply in_flat_map. exists (Shown (Call c)).
    split; [apply in_map; exact H | left; reflexivity].
Qed.

Lemma reads_of_exec_trace (engine : list event) (students : Students)
      (demographic measure_label title : string) :
  reads_of (exec_trace engine students demographic measure_label title) = [].
Proof.
  unfold reads_of, exec_trace. cbn [flat_map app].
  rewrite flat_map_app.
  assert (E : flat_map (fun ev => match ev with
                                  | Read_sql q => [q]
                                  | _ => []
                                  end) (map Shown engine) = []).
  { induction engine as [|e l IH]; simpl; [reflexivity | exact IH]. }
  rewrite E. destruct (len _ <? 2)%nat; reflexivity.
Qed.

Lemma box_plots_of_exec_trace (engine : list event) (students : Students)
      (demographic measure_label title : string) :
  box_plots_of (exec_trace engine students demographic measure_label title)
  = if (len (anova_labels students demographic measure_label) <? 2)%nat
    then [] else [(demographic, title)].
Proof.
  unfold box_plots_of, exec_trace. cbn [flat_map app].
  rewrite flat_map_app.
  assert (E : flat_map (fun ev => match ev with
                                  | Plot (Box_plots x _ _ title) => [(x, title)]
                                  | _ => []
                                  end) (map Shown engine) = []).
  { induction engine as [|e l IH]; simpl; [reflexivity | exact IH]. }
  rewrite E. destruct (len _ <? 2)%nat; reflexivity.
Qed.

Lemma flat_map_flat_map {A B C} (g : B -> list C) (f : A -> list B)
      (l : list A) :
  flat_map g (flat_map f l) = flat_map (fun x => flat_map g (f x)) l.
Proof.
  induction l as [|x l IH]; simpl; [reflexivity|].
  rewrite flat_map_app, IH. reflexivity.
Qed.

Lemma reads_of_detailed (students : Students) (measure measure_label : string) :
  reads_of (detailed_trace students measure measure_label) = [].
Proof.
  unfold detailed_trace.
  induction analysis_plan as [|step plan IH]; [reflexivity|].
  cbn [flat_map]. unfold reads_of in *. rewrite flat_map_app, IH, app_nil_r.
  apply reads_of_exec_trace.
Qed.

(** X10.  An analysis of one demographic draws its box plots exactly when
    two labels pass the size filter, after everything its engine has
    shown; otherwise it ends with the message of the engine that the test
    cannot be run. *)
Theorem exec_draws_box_plots_iff_ran (students : Students)
        (demographic measure_label title : string) :
  (at_least_two_eligible students demographic measure_label ->
   _exec_anova students demographic measure_label title
   = (Done tt,
      Shown (Display ("### " ++ title)%string) :: Output_widget
      :: map Shown (trace (run_anova students demographic measure_label))
      ++ [Plot (Box_plots demographic (plot_order students demographic)
                          measure_label title)])
   /\ _exec_t_test students demographic measure_label title
      = (Done tt,
         Shown (Display ("### " ++ title)%string) :: Output_widget
         :: map Shown (trace (run_t_test students demographic measure_label))
         ++ [Plot (Box_plots demographic (plot_order students demographic)
                             measure_label title)]))
  /\ (~ at_least_two_eligible students demographic measure_label ->
      _exec_anova students demographic measure_label title
      = (Done tt,
         [ Shown (Display ("### " ++ title)%string); Output_widget;
           Shown anova_cannot_run ])
      /\ _exec_t_test students demographic measure_label title
         = (Done tt,
            [ Shown (Display ("### " ++ title)%string); Output_widget;
              Shown (t_test_cannot_run students demographic measure_label) ])).
Proof.
  rewrite <- two_labels, exec_anova_eq, exec_t_test_eq. unfold exec_trace.
  rewrite run_anova_eq, run_t_test_eq, t_test_categories_anova_labels.
  destruct (Nat.ltb_spec
              (len (anova_labels students demographic measure_label)) 2)
    as [L|L]; split; intros H; try (exfalso; lia); split; reflexivity.
Qed.

(** X11.  When the table cannot be read, [run_analysis] shows that the
    data set could not be loaded and the text of the exception, and
    stops: whatever the measure, it analyses nothing and raises
    nothing. *)
Theorem run_analysis_load_failure (adapter : Adapter)
        (ed_org_level measure text : string) :
  pd_read_sql (query_of ed_org_level) adapter = inr text ->
  run_analysis adapter ed_org_level measure
  = (Done tt,
     [ Chart_style;
       Read_sql (query_of ed_org_level);
       Shown (Display "❌ **Could not load initial data set:**");
       Shown (Display ("```" ++ text ++ "```")%string) ]).
Proof. intros H. rewrite run_analysis_eq, H. reflexivity. Qed.

(** X12.  A measure other than the three known ones is refused only after
    the table has been read: [run_analysis] then shows that the selection
    is invalid and analyses nothing. *)
Theorem run_analysis_invalid_measure (adapter : Adapter)
        (ed_org_level measure : string) (students : Students) :
  pd_read_sql (query_of ed_org_level) adapter = inl students ->
  measure <> "Attendance Rate" ->
  measure <> "Behavior" ->
  measure <> "Course Performance" ->
  run_analysis adapter ed_org_level measure
  = (Done tt,
     [ Chart_style;
       Read_sql (query_of ed_org_level);
       Shown (Display "❌ **Invalid measure selection.**") ]).
Proof.
  intros H A B C. rewrite run_analysis_eq, H. unfold measure_label_of.
  apply String.eqb_neq in A, B, C.
  unfold Constants.ATTENDANCE, Constants.BEHAVIOR,
    Constants.COURSE_PERFORMANCE.
  rewrite A, B, C. reflexivity.
Qed.

(** The one query of a run. *)
Lemma reads_of_run_analysis (adapter : Adapter)
      (ed_org_level measure : string) :
  reads_of (snd (run_analysis adapter ed_org_level measure))
  = [ if String.eqb ed_org_level "School"
      then "select * from edfi_dei.schoolStudents"
      else "select * from edfi_dei.leaStudents" ].
Proof.
  rewrite run_analysis_eq. cbn [snd reads_of flat_map app].
  change (flat_map (fun ev => match ev with
                              | Read_sql q => [q]
                              | _ => []
                              end)) with reads_of.
  assert (E : reads_of
                match pd_read_sql (query_of ed_org_level) adapter with
                | inr text => load_failure text
                | inl students =>
                    match measure_label_of measure with
                    | None => [invalid_measure]
                    | Some measure_label =>
                        analysis_heading ed_org_level measure
                        :: big_picture_trace measure measure_label
                        ++ detailed_trace students measure measure_label
                    end
                end = []).
  { destruct (pd_read_sql _ adapter) as [students|text]; [|reflexivity].
    destruct (measure_label_of measure) as [ml|]; [|reflexivity].
    unfold reads_of at 1. cbn [flat_map analysis_heading app].
    rewrite flat_map_app. cbn [big_picture_trace flat_map app].
    apply reads_of_detailed. }
  rewrite E. unfold query_of, Constants.SCHOOL, GET_SCHOOL_STUDENTS,
    GET_LEA_STUDENTS.
  destruct (String.eqb ed_org_level "School"); reflexivity.
Qed.

(** X14.  Whatever [run_analysis] is given, no test it runs is the
    Kruskal-Wallis test that its introduction announces, and every test
    is given samples of more than 30 values, none of them missing. *)
Theorem run_analysis_tests (adapter : Adapter)
        (ed_org_level measure : string) :
  Forall (fun c =>
            (forall data, c <> Kruskal data)
            /\ Forall (fun s => Forall (fun x => is_nan x = false) s
                                /\ (30 < Z.of_nat (List.length s))%Z)
                      (samples_of c))
         (calls_of (snd (run_analysis adapter ed_org_level measure))).
Proof.
  apply Forall_forall. rewrite run_analysis_eq.
  intros c H. cbn [snd calls_of flat_map app] in H.
  destruct (pd_read_sql _ adapter) as [students|text];
    [|simpl in H; destruct H].
  destruct (measure_label_of measure) as [ml|]; [|simpl in H; destruct H].
  cbn [flat_map analysis_heading app] in H.
  rewrite flat_map_app in H. cbn [big_picture_trace flat_map app] in H.
  unfold detailed_trace in H. rewrite flat_map_flat_map in H.
  apply in_flat_map in H. destruct H as ([[kind d] suffix] & _ & H).
  cbn [fst snd] in H.
  apply (calls_of_exec_trace _ students d ml) in H.
  apply (engine_calls_clean kind students d ml c H).
Qed.

(** X15.  In a run of [run_analysis] on a table that was read and a known
    measure, the box plots of one of the seven demographics are drawn
    exactly when two of its labels pass the size filter. *)
Theorem run_analysis_box_plots (adapter : Adapter)
        (ed_org_level measure measure_label : string) (students : Students)
        (kind : engine_kind) (demographic suffix : string) :
  pd_read_sql (query_of ed_org_level) adapter = inl students ->
  measure_label_of measure = Some measure_label ->
  In (kind, demographic, suffix) analysis_plan ->
  In (demographic, (measure ++ suffix)%string)
     (box_plots_of (snd (run_analysis adapter ed_org_level measure)))
  <-> at_least_two_eligible students demographic measure_label.
Proof.
  intros L M P. rewrite run_analysis_eq, L, M, <- two_labels.
  cbn [snd box_plots_of flat_map analysis_heading app].
  rewrite flat_map_app. cbn [big_picture_trace flat_map app].
  unfold detailed_trace. rewrite flat_map_flat_map.
  rewrite in_flat_map. split.
  - intros ([[kind' d'] suffix'] & _ & H). cbn [fst snd] in H.
    change (In (demographic, (measure ++ suffix)%string)
               (box_plots_of
                  (exec_trace (engine_trace kind' students d' measure_label)
                              students d' measure_label
                              (measure ++ suffix')%string))) in H.
    rewrite box_plots_of_exec_trace in H.
    destruct (Nat.ltb_spec (len (anova_labels students d' measure_label)) 2)
      as [B|B]; [destruct H|].
    destruct H as [H|[]]. inversion H; subst. exact B.
  - intros B. exists (kind, demographic, suffix). split; [exact P|].
    cbn [fst snd].
    change (In (demographic, (measure ++ suffix)%string)
               (box_plots_of
                  (exec_trace (engine_trace kind students demographic
                                            measure_label)
                              students demographic measure_label
                              (measure ++ suffix)%string))).
    rewrite box_plots_of_exec_trace.
    destruct (Nat.ltb_spec
                (len (anova_labels students demographic measure_label)) 2)
      as [B'|_]; [lia|]. left. reflexivity.
Qed.

End Analysis.

Section OneTable.
Context {scipy : Scipy} {fmt : PyFmt}.

(** X13.  Every run of [run_analysis] makes one attempt to load a table,
    with one query and no second try: the query of the schools for the
    level "School", and the query of the local education agencies for
    every other level.  Nothing else of the database reaches the run: on
    two databases that answer this query alike, failure included, the
    runs are the same. *)
Theorem run_analysis_reads_one_table (db : Database) (adapter : Adapter)
        (ed_org_level measure : string) :
  reads_of (snd (run_analysis (db := db) adapter ed_org_level measure))
  = [ if String.eqb ed_org_level "School"
      then "select * from edfi_dei.schoolStudents"
      else "select * from edfi_dei.leaStudents" ]
  /\ forall db' : Database,
       pd_read_sql (Database := db')
                   (if String.eqb ed_org_level "School"
                    then "select * from edfi_dei.schoolStudents"
                    else "select * from edfi_dei.leaStudents") adapter
       = pd_read_sql (Database := db)
                     (if String.eqb ed_org_level "School"
                      then "select * from edfi_dei.schoolStudents"
                      else "select * from edfi_dei.leaStudents") adapter ->
       run_analysis (db := db') adapter ed_org_level measure
       = run_analysis (db := db) adapter ed_org_level measure.
Proof.
  split; [apply reads_of_run_analysis|].
  intros db' H.
  rewrite (run_analysis_eq (db := db')), (run_analysis_eq (db := db)).
  change (if String.eqb ed_org_level "School"
          then "select * from edfi_dei.schoolStudents"
          else "select * from edfi_dei.leaStudents")
    with (query_of ed_org_level) in H.
  rewrite H. reflexivity.
Qed.

End OneTable.

(** ** The adapter of the notebook and the run button *)

Section NotebookUiFacts.
Context {scipy : Scipy} {fmt : PyFmt} {db : Database} {runtime : Runtime}.

(** A call with parameters that fails. *)
Local Abbreviation fails :=
  (fun params => exists e, fst (_get_db_adapter (Some params) None) = Failed e).

Lemma get_db_adapter_result (params : ConnectionParameters)
      (adapter : option Adapter) :
  fst (_get_db_adapter (Some params) adapter)
  = fst (_get_db_adapter (Some params) None).
Proof.
  unfold _get_db_adapter.
  destruct (String.eqb _ ""), (py_int _); reflexivity.
Qed.

Lemma get_db_adapter_state (params : ConnectionParameters)
      (adapter : option Adapter) :
  snd (_get_db_adapter (Some params) adapter)
  = match fst (_get_db_adapter (Some params) None) with
    | Done a => Some a
    | Failed _ => adapter
    end.
Proof.
  unfold _get_db_adapter.
  destruct (String.eqb _ ""), (py_int _); reflexivity.
Qed.

Lemma after_calls_app (before later : list ConnectionParameters)
      (adapter : option Adapter) :
  after_calls (before ++ later) adapter
  = after_calls later (after_calls before adapter).
Proof.
  revert adapter. induction before as [|p before IH]; intros adapter;
    [reflexivity | apply IH].
Qed.

Lemma after_calls_failed (calls : list ConnectionParameters)
      (adapter : option Adapter) :
  Forall fails calls -> after_calls calls adapter = adapter.
Proof.
  induction 1 as [|p calls [e E] _ IH]; [reflexivity|].
  cbn [after_calls]. rewrite get_db_adapter_state, E. exact IH.
Qed.

(** X16.  The run button analyses with the adapter of the last call of
    [_get_db_adapter] that succeeded: a call that fails on its port
    leaves the adapter of an earlier one in place.  As long as no call
    has succeeded, the button raises a [RuntimeError] before anything is
    shown or read. *)
Theorem run_click_uses_last_adapter (calls : list ConnectionParameters)
        (ed_org_level measure : string) :
  (Forall fails calls ->
   __on_run_click ed_org_level measure (after_calls calls None)
   = ((Failed (RuntimeError "Adapter has not been initialized yet."), []),
      None))
  /\ (forall before params later a,
        calls = before ++ params :: later ->
        fst (_get_db_adapter (Some params) None) = Done a ->
        Forall fails later ->
        __on_run_click ed_org_level measure (after_calls calls None)
        = (run_analysis a ed_org_level measure, Some a)).
Proof.
  split.
  - intros F. rewrite (after_calls_failed calls None F). reflexivity.
  - intros before params later a -> E F.
    rewrite after_calls_app. cbn [after_calls].
    rewrite get_db_adapter_state, E, (after_calls_failed later _ F).
    reflexivity.
Qed.

(** X17.  The password of the connection parameters is never used: the
    adapter does not depend on it, and an adapter that logs in with a
    password has the one of the environment variable [MSSQL_PASSWORD],
    or the empty text.  The adapter logs in with a password exactly when
    the user name is not blank, and is then given the user name as it was
    typed, not stripped. *)
Theorem adapter_password_from_environment (params : ConnectionParameters)
        (adapter : option Adapter) :
  (forall text,
     _get_db_adapter (Some (with_password params text)) adapter
     = _get_db_adapter (Some params) adapter)
  /\ (forall a,
        fst (_get_db_adapter (Some params) adapter) = Done a ->
        (str_strip (username params) = ""
         /\ password_of a = None)
        \/ (str_strip (username params) <> ""
            /\ password_of a = Some (getenv_or "MSSQL_PASSWORD" "")
            /\ exists number,
                 a = mssql_adapter (username params)
                                   (getenv_or "MSSQL_PASSWORD" "")
                                   (server params) (database params) number
                                   (encrypt params)
                                   (trust_certificate params))).
Proof.
  split; [reflexivity|].
  intros a. unfold _get_db_adapter.
  destruct (String.eqb_spec (str_strip (username params)) "") as [E|E];
    destruct (py_int _) as [number|text]; cbn [fst]; intros H;
    inversion H; subst.
  - left. split; [exact E | reflexivity].
  - right. split; [exact E|]. split; [reflexivity|].
    exists number. reflexivity.
Qed.

End NotebookUiFacts.

(** ** The engines on sample data *)

Section Samples.
Import Sample.
Existing Instance numpy_fmt.

Local Abbreviation race := "Race".
Local Abbreviation attendance := "AttendanceRate".

Lemma run_anova_nan_no_fallback_witness :
  is_nan (anova_p_value (scipy := anova_undefined)
                        constant_cohorts race attendance) = true
  /\ (2 <= len (anova_labels constant_cohorts race attendance))%nat
  /\ forall data,
       ~ In (Call (Kruskal data))
            (trace (run_anova (scipy := anova_undefined)
                              constant_cohorts race attendance)).
Proof.
  assert (H1 : is_nan (anova_p_value (scipy := anova_undefined)
                                     constant_cohorts race attendance) = true)
    by reflexivity.
  assert (H2 : (2 <= len (anova_labels constant_cohorts race attendance))%nat)
    by (vm_compute; apply le_n).
  split; [exact H1|]. split; [exact H2|].
  exact (proj2 (run_anova_nan_no_fallback (scipy := anova_undefined)
                  constant_cohorts race attendance H1 H2)).
Defined.

Lemma two_cohorts_eligible :
  at_least_two_eligible two_cohorts race attendance.
Proof.
  exists "A", "B". split; [discriminate|]. split; reflexivity.
Defined.

Lemma engines_run_iff_two_eligible_witness :
  at_least_two_eligible two_cohorts race attendance
  /\ result (run_anova (scipy := welch_005) two_cohorts race attendance)
     = Ok true
  /\ result (run_t_test (scipy := welch_005) two_cohorts race attendance)
     = Ok true.
Proof.
  split; [exact two_cohorts_eligible|].
  destruct (proj2 (engines_run_iff_two_eligible (scipy := welch_005)
                     two_cohorts race attendance) two_cohorts_eligible)
    as (A & _ & T & _).
  split; [exact A | exact T].
Defined.



Lemma run_t_test_stats_table_witness :
  (2 <= len (t_test_categories two_cohorts race attendance))%nat
  /\ cell_under (stats_table two_cohorts race attendance) "Min" 0
     = Some (Str "82.0")
  /\ cell_under (stats_table two_cohorts race attendance) "Max" 0
     = Some (Str "80.0")
  /\ pd.min (subgroup two_cohorts race attendance "A") = 80
  /\ pd.max (subgroup two_cohorts race attendance "A") = 82.
Proof.
  assert (H1 : (2 <= len (t_test_categories two_cohorts race attendance))%nat)
    by (vm_compute; apply le_n).
  destruct (proj2 (run_t_test_stats_table (scipy := welch_005)
                     two_cohorts race attendance H1) O)
    as (_ & _ & _ & _ & Hmin & Hmax); [apply Nat.lt_0_succ|].
  split; [exact H1|]. split; [exact Hmin|]. split; [exact Hmax|].
  split; reflexivity.
Defined.

Lemma three_cohorts_labels :
  (2 <= len (anova_labels three_cohorts race attendance))%nat.
Proof. vm_compute. apply le_S, le_n. Defined.

Lemma posthoc_table_rows_witness :
  (2 <= len (anova_labels three_cohorts race attendance))%nat
  /\ (anova_p_value (scipy := close_p_values) three_cohorts race attendance
      >? 0.05) = false
  /\ count_if (is_pair "A" "B")
              (data (posthoc_table (scipy := close_p_values)
                                   three_cohorts race attendance))
     = 1%nat.
Proof.
  assert (H2 : (anova_p_value (scipy := close_p_values)
                              three_cohorts race attendance >? 0.05) = false)
    by reflexivity.
  split; [exact three_cohorts_labels|]. split; [exact H2|].
  refine (proj1 (proj2 (posthoc_table_rows (scipy := close_p_values)
                          three_cohorts race attendance
                          three_cohorts_labels H2)) "A" "B" _ _ _).
  - reflexivity.
  - reflexivity.
  - discriminate.
Defined.

(** The table is shown with the row of p-value 0.0004 before the row of
    p-value 0.0001: both are formatted as the text "0.0". *)
Lemma posthoc_table_not_ascending :
  In (Display (to_markdown (posthoc_table (scipy := close_p_values)
                                          three_cohorts race attendance)))
     (trace (run_anova (scipy := close_p_values)
                       three_cohorts race attendance))
  /\ map (text_at 3)
         (data (posthoc_table (scipy := close_p_values)
                              three_cohorts race attendance))
     = ["0.0"; "0.0"; "0.03"]
  /\ posthoc_order (scipy := close_p_values) three_cohorts race attendance
     = [(0, 1); (0, 2); (1, 2)]%nat
  /\ posthoc_p_value (scipy := close_p_values)
                     three_cohorts race attendance (0, 1)%nat = 0.0004
  /\ posthoc_p_value (scipy := close_p_values)
                     three_cohorts race attendance (0, 2)%nat = 0.0001
  /\ ~ ascending_by_p_value (scipy := close_p_values)
                            three_cohorts race attendance.
Proof.
  split.
  { rewrite run_anova_eq.
    change (len (anova_labels three_cohorts race attendance) <? 2)%nat
      with false.
    change (anova_p_value (scipy := close_p_values)
                          three_cohorts race attendance >? 0.05)
      with false.
    unfold trace. cbn [snd]. apply in_or_app. right.
    right. right. right. right. left. reflexivity. }
  split; [vm_compute; reflexivity|].
  assert (O3 : posthoc_order (scipy := close_p_values)
                             three_cohorts race attendance
               = [(0, 1); (0, 2); (1, 2)]%nat) by (vm_compute; reflexivity).
  split; [exact O3|]. split; [reflexivity|]. split; [reflexivity|].
  unfold ascending_by_p_value. rewrite O3. intros S.
  inversion S as [|x l _ Hd]; subst. inversion Hd as [|y l' R]; subst.
  vm_compute in R. discriminate R.
Qed.

Lemma three_cohorts_eligible :
  at_least_two_eligible three_cohorts race attendance.
Proof.
  exists "A", "B". split; [discriminate|]. split; reflexivity.
Defined.

Lemma participation_by_size_witness :
  at_least_two_eligible three_cohorts race attendance
  /\ participates three_cohorts race attendance
       (run_anova (scipy := close_p_values) three_cohorts race attendance) "C".
Proof.
  split; [exact three_cohorts_eligible|].
  refine (proj1 (proj2 (proj2 (proj2
            (participation_by_size (scipy := close_p_values)
               three_cohorts race attendance)))
            three_cohorts_eligible) "C" _).
  reflexivity.
Defined.

(** A third label with 31 outcome values: it passes the size filter, and
    the two-group engine does not test it. *)
Lemma third_label_not_tested :
  eligible three_cohorts race attendance "C"
  /\ ~ participates three_cohorts race attendance
         (run_t_test (scipy := close_p_values)
                     three_cohorts race attendance) "C".
Proof.
  split; [reflexivity|].
  intros (c & Hc & Hs). apply t_test_calls in Hc. destruct Hc as [_ E].
  rewrite E in Hs.
  destruct Hs as [Hs|[Hs|[]]];
    apply (f_equal (fun s => pd.max s <=? 75)) in Hs;
    vm_compute in Hs; discriminate Hs.
Qed.

End Samples.

(** ** The notebook on sample data *)

Section NotebookSamples.
Import Sample SampleDb SampleUi.
Existing Instance numpy_fmt.
Existing Instance nothing_significant.

Local Abbreviation race := "Race".
Local Abbreviation attendance := "AttendanceRate".

Lemma tested_samples_clean_and_large_witness :
  tested (trace (run_t_test two_cohorts race attendance))
         (cat_0 two_cohorts race attendance)
  /\ Forall (fun x => is_nan x = false) (cat_0 two_cohorts race attendance)
  /\ (30 < Z.of_nat (List.length (cat_0 two_cohorts race attendance)))%Z.
Proof.
  assert (T : tested (trace (run_t_test two_cohorts race attendance))
                     (cat_0 two_cohorts race attendance)).
  { exists (Ttest_ind (cat_0 two_cohorts race attendance)
                      (cat_1 two_cohorts race attendance) false).
    split; [|left; reflexivity].
    rewrite run_t_test_eq.
    change (len (t_test_categories two_cohorts race attendance) <? 2)%nat
      with false.
    left. reflexivity. }
  split; [exact T|].
  exact (tested_samples_clean_and_large two_cohorts race attendance
           (cat_0 two_cohorts race attendance) (or_intror T)).
Defined.

Lemma run_t_test_upheld_witness :
  (2 <= len (t_test_categories two_cohorts race attendance))%nat
  /\ (t_test_p_value two_cohorts race attendance >? 0.05) = true
  /\ run_t_test two_cohorts race attendance
     = (Ok true,
        [ Call (Ttest_ind (cat_0 two_cohorts race attendance)
                          (cat_1 two_cohorts race attendance) false);
          hypothesis race attendance " for ";
          upheld 0.5;
          Display (to_markdown (stats_table two_cohorts race attendance)) ]).
Proof.
  assert (H1 : (2 <= len (t_test_categories two_cohorts race attendance))%nat)
    by (vm_compute; apply le_n).
  assert (H2 : (t_test_p_value two_cohorts race attendance >? 0.05) = true)
    by reflexivity.
  split; [exact H1|]. split; [exact H2|].
  exact (run_t_test_upheld two_cohorts race attendance H1 H2).
Defined.

Lemma run_analysis_load_failure_witness :
  pd_read_sql (Database := unreachable "Login failed.")
              "select * from edfi_dei.schoolStudents" local_adapter
  = inr "Login failed."
  /\ run_analysis (db := unreachable "Login failed.")
                  local_adapter "School" "Behavior"
     = (Done tt,
        [ Chart_style;
          Read_sql "select * from edfi_dei.schoolStudents";
          Shown (Display "❌ **Could not load initial data set:**");
          Shown (Display "```Login failed.```") ]).
Proof.
  split; [reflexivity|].
  exact (run_analysis_load_failure (db := unreachable "Login failed.")
           local_adapter "School" "Behavior" "Login failed." eq_refl).
Defined.

Lemma run_analysis_invalid_measure_witness :
  pd_read_sql (Database := holding two_cohorts)
              "select * from edfi_dei.leaStudents" local_adapter
  = inl two_cohorts
  /\ run_analysis (db := holding two_cohorts)
                  local_adapter "Local Education Agency" "Attendance"
     = (Done tt,
        [ Chart_style;
          Read_sql "select * from edfi_dei.leaStudents";
          Shown (Display "❌ **Invalid measure selection.**") ]).
Proof.
  split; [reflexivity|].
  refine (run_analysis_invalid_measure (db := holding two_cohorts)
            local_adapter "Local Education Agency" "Attendance" two_cohorts
            eq_refl _ _ _); discriminate.
Defined.

Lemma posthoc_table_size_witness :
  (2 <= len (anova_labels three_cohorts race attendance))%nat
  /\ (anova_p_value (scipy := close_p_values) three_cohorts race attendance
      >? 0.05) = false
  /\ len (anova_labels three_cohorts race attendance) = 3%nat
  /\ (2 * List.length
            (data (posthoc_table (scipy := close_p_values)
                                 three_cohorts race attendance))
      = len (anova_labels three_cohorts race attendance)
        * (len (anova_labels three_cohorts race attendance) - 1))%nat.
Proof.
  assert (H1 : (2 <= len (anova_labels three_cohorts race attendance))%nat)
    by (vm_compute; apply le_S, le_n).
  assert (H2 : (anova_p_value (scipy := close_p_values)
                              three_cohorts race attendance >? 0.05) = false)
    by reflexivity.
  split; [exact H1|]. split; [exact H2|]. split; [reflexivity|].
  exact (proj1 (proj2 (posthoc_table_size (scipy := close_p_values)
                         three_cohorts race attendance H1 H2))).
Defined.

(** The table of the agencies is missing: a run on the schools is the
    same as on a database that has both tables. *)
Lemma run_analysis_reads_one_table_witness :
  pd_read_sql (Database := schools_only two_cohorts)
              "select * from edfi_dei.leaStudents" local_adapter
  <> pd_read_sql (Database := holding two_cohorts)
                 "select * from edfi_dei.leaStudents" local_adapter
  /\ run_analysis (db := schools_only two_cohorts)
                  local_adapter "School" "Behavior"
     = run_analysis (db := holding two_cohorts)
                    local_adapter "School" "Behavior".
Proof.
  split; [discriminate|].
  exact (proj2 (run_analysis_reads_one_table (holding two_cohorts)
                  local_adapter "School" "Behavior")
               (schools_only two_cohorts) eq_refl).
Defined.

Lemma run_analysis_tests_witness :
  In (Ttest_ind (cat_0 two_cohorts "IsHispanic" attendance)
                (cat_1 two_cohorts "IsHispanic" attendance) false)
     (calls_of (snd (run_analysis (db := holding two_cohorts)
                                  local_adapter "School" "Attendance Rate")))
  /\ Forall (fun c =>
               (forall data, c <> Kruskal data)
               /\ Forall (fun s => Forall (fun x => is_nan x = false) s
                                   /\ (30 < Z.of_nat (List.length s))%Z)
                         (samples_of c))
            (calls_of (snd (run_analysis (db := holding two_cohorts)
                                         local_adapter "School"
                                         "Attendance Rate"))).
Proof.
  split.
  - vm_compute. right. right. left. reflexivity.
  - exact (run_analysis_tests (db := holding two_cohorts)
             local_adapter "School" "Attendance Rate").
Defined.

Lemma two_cohorts_by_race :
  at_least_two_eligible two_cohorts race attendance.
Proof.
  exists "A", "B". split; [discriminate|]. split; reflexivity.
Defined.

Lemma run_analysis_box_plots_witness :
  pd_read_sql (Database := holding two_cohorts)
              "select * from edfi_dei.schoolStudents" local_adapter
  = inl two_cohorts
  /\ In (Anova, race, " by Race") analysis_plan
  /\ In (race, "Attendance Rate by Race")
        (box_plots_of (snd (run_analysis (db := holding two_cohorts)
                                         local_adapter "School"
                                         "Attendance Rate"))).
Proof.
  assert (P : In (Anova, race, " by Race") analysis_plan)
    by (left; reflexivity).
  split; [reflexivity|]. split; [exact P|].
  exact (proj2 (run_analysis_box_plots (db := holding two_cohorts)
                  local_adapter "School" "Attendance Rate" attendance
                  two_cohorts Anova race " by Race" eq_refl eq_refl P)
               two_cohorts_by_race).
Defined.

(** A login that succeeds, then a call that fails on its port: the run
    button still analyses with the adapter of the login. *)
Lemma run_click_uses_last_adapter_witness :
  fst (_get_db_adapter (runtime := process) (Some sa_login) None)
  = Done (mssql_adapter "sa" "from-mssql" "localhost" "EdFi_Ods" 1433
                        false true)
  /\ fst (_get_db_adapter (runtime := process) (Some bad_port) None)
     = Failed (Int_error "invalid literal for int() with base 10: '14x3'")
  /\ __on_run_click (db := holding two_cohorts) (runtime := process)
       "School" "Behavior"
       (after_calls (runtime := process) [sa_login; bad_port] None)
     = (run_analysis (db := holding two_cohorts)
          (mssql_adapter "sa" "from-mssql" "localhost" "EdFi_Ods" 1433
                         false true)
          "School" "Behavior",
        Some (mssql_adapter "sa" "from-mssql" "localhost" "EdFi_Ods" 1433
                            false true)).
Proof.
  assert (A : fst (_get_db_adapter (runtime := process) (Some sa_login) None)
              = Done (mssql_adapter "sa" "from-mssql" "localhost" "EdFi_Ods"
                                    1433 false true))
    by reflexivity.
  assert (B : fst (_get_db_adapter (runtime := process) (Some bad_port) None)
              = Failed (Int_error
                          "invalid literal for int() with base 10: '14x3'"))
    by reflexivity.
  split; [exact A|]. split; [exact B|].
  refine (proj2 (run_click_uses_last_adapter
                   (db := holding two_cohorts) (runtime := process)
                   [sa_login; bad_port] "School" "Behavior")
                [] sa_login [bad_port] _ eq_refl A _).
  constructor; [|constructor]. eexists. exact B.
Defined.

(** The password that the parameters carry is not the one of the
    adapter. *)
Lemma adapter_password_from_environment_witness :
  password sa_login = "from-dei"
  /\ _get_db_adapter (runtime := process)
                     (Some (with_password sa_login "another")) None
     = _get_db_adapter (runtime := process) (Some sa_login) None.
Proof.
  split; [reflexivity|].
  exact (proj1 (adapter_password_from_environment (runtime := process)
                  sa_login None) "another").
Defined.

End NotebookSamples.
